(** * Indoor Localization API: a shallow embedding of [app/main.py]

    The development follows the three source files:
    - [app/schemas.py]  -> modules [RouterData], [MeasurementData], [PredictData];
    - [app/models.py]   -> modules [Room], [Measurement], [Router],
                           [MeasurementRouter] and the record [Db];
    - [app/main.py]     -> [add_measurement], [predict_room],
                           [get_all_measurements],
                           [handle_get_room_name_by_id].

    The helper module [utils] imported by [main.py] is not part of the
    sources; [predict_room] is parameterised by a record [Utils] holding its
    thirteen functions, and an executable instance following the written
    specification is given in [SpecUtils]. *)

From Stdlib Require Import ZArith List String Bool Lia PrimFloat Uint63.
From Stdlib Require Import Permutation.
Import ListNotations.
Local Open Scope string_scope.
Local Open Scope Z_scope.
Local Open Scope list_scope.

(** ** Python values and exceptions *)

(** The exceptions that the handlers can let escape. *)
Inductive exn : Type :=
| HTTPException (status_code : Z) (detail : string)
| ValueError (msg : string)
| TypeError (msg : string)
| UnboundLocalError (var : string)
| AttributeError (msg : string)
| IntegrityError (msg : string)
| NotImplementedError (msg : string).

(** A Python number that is either an [int] or a [float]. *)
Inductive pynum : Type :=
| PyInt (z : Z)
| PyFloat (f : float).

(** Truth value testing: [not s] for a [str], [not n] for an [int],
    [not l] for a [list]. *)
Definition not_str (s : string) : bool := String.eqb s "".
Definition not_int (n : Z) : bool := n =? 0.
Definition not_list {A} (l : list A) : bool :=
  match l with [] => true | _ :: _ => false end.

(** ** [app/schemas.py] *)

Module RouterData.
Record t := mk { ssid : string; bssid : string; signal_strength : Z }.
End RouterData.

Module MeasurementData.
Record t := mk {
  room_name : string;
  device_id : string;
  timestamp : Z;
  routers : list RouterData.t
}.
End MeasurementData.

(** [Optional[T] = default] fields are [option T]: a client may send an
    explicit [null]. *)
Module PredictData.
Record t := mk {
  routers : list RouterData.t;
  ignore_measurements : option (list Z);
  use_remove_unreceived_bssids : option bool;
  handle_missing_values_strategy : option string;
  router_selection : option string;
  router_presence_threshold : option float;
  value_scaling_strategy : option string;
  router_rssi_threshold : option Z;
  algorithm : option string;
  k_value : option Z;
  weights : option string;
  n_estimators : option Z;
  c_value : option float;
  gamma_value : option float;
  max_depth : option Z
}.

(** The defaults of the schema, for a body that only carries [routers]. *)
Definition defaults (rs : list RouterData.t) : t :=
  mk rs None (Some true) (Some "use_received") (Some "all") (Some 0%float)
     (Some "none") (Some (-100)) (Some "knn_euclidean") (Some 5)
     (Some "uniform") (Some 300) (Some 1%float) (Some 1%float) None.
End PredictData.

(** ** [app/models.py] *)

(** A naive UTC [datetime], kept as its number of seconds since the epoch. *)
Definition datetime := Z.

Module Room.
Record t := mk {
  room_id : Z;
  room_name : string;
  description : option string;
  coordinates : option string;
  picture_path : option string;
  additional_info : option string
}.
End Room.

Module Measurement.
Record t := mk {
  measurement_id : Z;
  timestamp : datetime;
  device_id : string;
  room_id : Z
}.
End Measurement.

Module Router.
Record t := mk { router_id : Z; ssid : string; bssid : string }.
End Router.

Module MeasurementRouter.
Record t := mk {
  measurement_id : Z;
  router_id : Z;
  signal_strength : option Z
}.
End MeasurementRouter.

(** The four tables.  Rows are kept in the order of their insertion, which
    for [rooms], [measurements] and [routers] is also the order of their
    generated keys. *)
Record Db := mkDb {
  rooms : list Room.t;
  measurements : list Measurement.t;
  routers : list Router.t;
  measurement_router : list MeasurementRouter.t
}.

(** The value of an [Integer] primary key filled in by the database on
    insert: one more than the largest key in the table. *)
Definition next_id (ids : list Z) : Z := fold_right Z.max 0 ids + 1.

(** ** A session: state and exceptions

    A computation on a [Session] reads and updates the committed tables and
    either returns a value or raises. *)

Definition Session (A : Type) : Type := Db -> (exn + A) * Db.

Definition sret {A} (a : A) : Session A := fun db => (inr a, db).
Definition sraise {A} (e : exn) : Session A := fun db => (inl e, db).
Definition sbind {A B} (m : Session A) (f : A -> Session B) : Session B :=
  fun db =>
    match m db with
    | (inl e, db') => (inl e, db')
    | (inr a, db') => f a db'
    end.

Declare Scope session_scope.
Delimit Scope session_scope with session.
Notation "x <- m ;; k" := (sbind m (fun x => k))
  (at level 61, m at next level, right associativity) : session_scope.
Notation "m ;; k" := (sbind m (fun _ => k))
  (at level 61, right associativity) : session_scope.

(** [db.query(Room).filter_by(room_name=...).first()] *)
Definition query_room_by_name (name : string) : Session (option Room.t) :=
  fun db => (inr (find (fun r => String.eqb (Room.room_name r) name) (rooms db)), db).

(** [db.query(Room).filter_by(room_id=...).first()] *)
Definition query_room_by_id (db : Db) (id : Z) : option Room.t :=
  find (fun r => Room.room_id r =? id) (rooms db).

(** [db.query(Measurement).filter_by(device_id=..., timestamp=...).first()] *)
Definition query_measurement (dev : string) (ts : datetime)
  : Session (option Measurement.t) :=
  fun db =>
    (inr (find (fun m => String.eqb (Measurement.device_id m) dev
                         && (Measurement.timestamp m =? ts))
               (measurements db)), db).

(** [db.query(Router).filter_by(bssid=...).first()] *)
Definition query_router_by_bssid (b : string) : Session (option Router.t) :=
  fun db => (inr (find (fun r => String.eqb (Router.bssid r) b) (routers db)), db).

(** [db.query(Router).filter_by(router_id=...).first()] *)
Definition query_router_by_id (db : Db) (id : Z) : option Router.t :=
  find (fun r => Router.router_id r =? id) (routers db).

(** [db.query(MeasurementRouter).filter_by(measurement_id=...).all()].  The
    query has no ORDER BY: the order of the rows is the database's, which
    usually lists them by primary key and not, as here, in the order of
    insertion.  What is proved of the listed rows beyond the handlers' calls
    is stated up to a permutation of this list. *)
Definition query_measurement_routers (db : Db) (mid : Z)
  : list MeasurementRouter.t :=
  filter (fun mr => MeasurementRouter.measurement_id mr =? mid)
         (measurement_router db).

(** [room = Room(room_name=...); db.add(room); db.commit(); db.refresh(room)] *)
Definition add_room (name : string) : Session Room.t :=
  fun db =>
    let r := Room.mk (next_id (map Room.room_id (rooms db))) name
                     None None None None in
    (inr r, mkDb (rooms db ++ [r]) (measurements db) (routers db)
                 (measurement_router db)).

(** [db.add(measurement); db.commit(); db.refresh(measurement)] *)
Definition add_measurement_row (ts : datetime) (dev : string) (rid : Z)
  : Session Measurement.t :=
  fun db =>
    let m := Measurement.mk (next_id (map Measurement.measurement_id
                                          (measurements db))) ts dev rid in
    (inr m, mkDb (rooms db) (measurements db ++ [m]) (routers db)
                 (measurement_router db)).

(** The composite primary key of [measurement_router]. *)
Definition mr_key_eqb (a b : MeasurementRouter.t) : bool :=
  (MeasurementRouter.measurement_id a =? MeasurementRouter.measurement_id b)
  && (MeasurementRouter.router_id a =? MeasurementRouter.router_id b).

Fixpoint mr_keys_distinct (l : list MeasurementRouter.t) : bool :=
  match l with
  | [] => true
  | x :: t => negb (existsb (mr_key_eqb x) t) && mr_keys_distinct t
  end.

(** [db.commit()] with the [MeasurementRouter] objects added so far still
    pending and, possibly, one new [Router]: one transaction, which fails as
    a whole when two link rows share their primary key.  The width of the
    columns is not checked here: a [signal_strength] that the [Integer]
    column cannot hold makes the commit of the database fail as well. *)
Definition commit (new_router : option Router.t)
                  (pending : list MeasurementRouter.t) : Session unit :=
  fun db =>
    if mr_keys_distinct (measurement_router db ++ pending) then
      (inr tt, mkDb (rooms db) (measurements db)
                    (routers db ++ match new_router with
                                   | Some r => [r] | None => [] end)
                    (measurement_router db ++ pending))
    else (inl (IntegrityError "Duplicate entry for key PRIMARY"), db).

(** [datetime.utcfromtimestamp]: defined for the years 1 to 9999. (CPython
    reports an [OverflowError] or [OSError] rather than a [ValueError] when
    the number is beyond the range of the platform's [time_t] or [gmtime].) *)
Definition utcfromtimestamp (t : Z) : Session datetime :=
  if (-62135596800 <=? t) && (t <=? 253402300799)
  then sret t
  else sraise (ValueError "year is out of range").

(** ** [add_measurement] ([main.py], lines 62-121) *)

Section AddMeasurement.
Local Open Scope session_scope.

(** Lines 97-117: the loop over [routers]; [pending] holds the link rows
    added to the session and not yet committed. *)
Fixpoint add_routers (mid : Z) (rs : list RouterData.t)
                     (pending : list MeasurementRouter.t)
  : Session (list MeasurementRouter.t) :=
  match rs with
  | [] => sret pending
  | router_data :: rest =>
      let bssid := RouterData.bssid router_data in
      let ssid := RouterData.ssid router_data in
      let signal_strength := RouterData.signal_strength router_data in
      if not_str bssid then add_routers mid rest pending
      else
        router <- query_router_by_bssid bssid ;;
        match router with
        | Some router =>
            add_routers mid rest
              (pending ++ [MeasurementRouter.mk mid (Router.router_id router)
                                                (Some signal_strength)])
        | None =>
            new_id <- (fun db => (inr (next_id (map Router.router_id
                                                    (routers db))), db)) ;;
            let router := Router.mk new_id ssid bssid in
            commit (Some router) pending ;;
            add_routers mid rest
              [MeasurementRouter.mk mid new_id (Some signal_strength)]
        end
  end.

Definition add_measurement (data : MeasurementData.t) : Session string :=
  let room_name := MeasurementData.room_name data in
  let device_id := MeasurementData.device_id data in
  let timestamp := MeasurementData.timestamp data in
  let routers := MeasurementData.routers data in
  if not_str room_name || not_str device_id || not_int timestamp
     || not_list routers
  then sraise (HTTPException 400 "Missing data")
  else
    found <- query_room_by_name room_name ;;
    room <- match found with
            | Some room => sret room
            | None => add_room room_name
            end ;;
    timestamp_obj <- utcfromtimestamp timestamp ;;
    existing_measurement <- query_measurement device_id timestamp_obj ;;
    match existing_measurement with
    | Some _ =>
        sraise (HTTPException 409
          "Measurement with the same device_id and timestamp already exists")
    | None =>
        measurement <- add_measurement_row timestamp_obj device_id
                                           (Room.room_id room) ;;
        pending <- add_routers (Measurement.measurement_id measurement)
                               routers [] ;;
        commit None pending ;;
        sret "Measurement added successfully"
    end.
End AddMeasurement.

(** ** numpy arrays

    A two-dimensional array is the list of its rows.  A cell of a signal
    matrix is an integer reading in dBm or [nan], the mark of a missing
    reading: [None]. *)

Definition cell : Type := option Z.
Definition ndarray (A : Type) : Type := list (list A).

(** [X.size]: the number of elements. *)
Definition size {A} (X : ndarray A) : nat := List.length (List.concat X).

Definition is_nan (c : cell) : bool :=
  match c with None => true | Some _ => false end.

(** [a < b] on scalars; every comparison with [nan] is false. *)
Definition cell_ltb (a b : cell) : bool :=
  match a, b with
  | Some x, Some y => x <? y
  | _, _ => false
  end.

(** [X.min()]: raises on an array without elements, and gives [nan] as soon
    as one element is [nan]. *)
Definition np_min (X : ndarray cell) : exn + cell :=
  match List.concat X with
  | [] => inl (ValueError
      "zero-size array to reduction operation minimum which has no identity")
  | c :: cs =>
      if existsb is_nan (c :: cs) then inr None
      else inr (fold_left (fun acc x => if cell_ltb x acc then x else acc) cs c)
  end.

(** The builtin [min(a, b)]: [b] when [b < a], otherwise [a]. *)
Definition py_min (a b : cell) : cell := if cell_ltb b a then b else a.

(** ** Calls into [utils], and the computations that record them *)

(** One row of [result]: the dictionary appended at lines 161-169. *)
Module Row.
Record t := mk {
  measurement_id : Z;
  timestamp : datetime;
  device_id : string;
  room_id : Z;
  bssid : string;
  ssid : string;
  signal_strength : option Z
}.
End Row.

(** The functions imported from [utils] at lines 14-16.  Each may raise.
    [Received] is what [process_received_data] builds from the live scan,
    [Rooms] the fingerprint records, [Scaled] the type of the elements of
    the two arrays once [value_scaling] has been applied.  They return new
    values and leave their arguments as they were. *)
Record Utils : Type := {
  Received : Type;
  Rooms : Type;
  Scaled : Type;
  process_received_data : list RouterData.t -> exn + Received;
  process_fingerprint_data : list Row.t -> exn + Rooms;
  remove_unreceived_bssids : Rooms -> Received -> exn + Rooms;
  remove_non_eduroam_bssids : Rooms -> exn + Rooms;
  remove_rare_routers : Rooms -> float -> exn + Rooms;
  prepare_data : Rooms -> exn + (ndarray cell * list Z * list string);
  handle_missing_values :
    ndarray cell -> list string -> Received -> option string
    -> exn + ndarray cell;
  prepare_received_data : Received -> list string -> exn + ndarray cell;
  handle_router_rssi_threshold :
    ndarray cell -> ndarray cell -> option Z
    -> exn + (ndarray cell * ndarray cell);
  value_scaling :
    ndarray cell -> ndarray cell -> cell -> option string
    -> exn + (ndarray Scaled * ndarray Scaled);
  knn :
    ndarray Scaled -> ndarray Scaled -> list Z -> option Z -> string
    -> option string -> exn + (Z * float);
  random_forest :
    ndarray Scaled -> ndarray Scaled -> list Z -> option Z -> option Z
    -> exn + (Z * float);
  svm :
    ndarray Scaled -> ndarray Scaled -> list Z -> option float -> string
    -> option float -> exn + (Z * float * pynum)
}.

(** The name of a function of [utils] that has been called, with the
    argument that the properties below speak about. *)
Inductive call : Type :=
| Call_process_received_data
| Call_process_fingerprint_data
| Call_remove_unreceived_bssids
| Call_remove_non_eduroam_bssids
| Call_remove_rare_routers (threshold : float)
| Call_prepare_data
| Call_handle_missing_values
| Call_prepare_received_data
| Call_handle_router_rssi_threshold
| Call_value_scaling (min_rssi_value : cell)
| Call_knn (metric : string)
| Call_random_forest
| Call_svm (kernel : string).

(** A computation of the handler: the calls made so far, in order, and
    either an exception or a value. *)
Definition M (A : Type) : Type := list call * (exn + A).

Definition ret {A} (a : A) : M A := ([], inr a).
Definition raise {A} (e : exn) : M A := ([], inl e).
Definition bind {A B} (m : M A) (f : A -> M B) : M B :=
  match m with
  | (t, inl e) => (t, inl e)
  | (t, inr a) => let (t', r) := f a in (t ++ t', r)
  end.
(** A call of a function of [utils]. *)
Definition invoke {A} (c : call) (r : exn + A) : M A := ([c], r).
(** A step that makes no call. *)
Definition lift {A} (r : exn + A) : M A := ([], r).

Definition trace {A} (m : M A) : list call := fst m.
Definition outcome {A} (m : M A) : exn + A := snd m.

Declare Scope handler_scope.
Delimit Scope handler_scope with handler.
Notation "x <- m ;; k" := (bind m (fun x => k))
  (at level 61, m at next level, right associativity) : handler_scope.
Notation "' p <- m ;; k" := (bind m (fun x => match x with p => k end))
  (at level 61, p pattern, m at next level, right associativity)
  : handler_scope.

(** ** [handle_get_room_name_by_id] ([main.py], lines 262-276) *)

Definition handle_get_room_name_by_id (room_id : Z) (db : Db) : string :=
  match query_room_by_id db room_id with
  | None => "Unknown"
  | Some room => Room.room_name room
  end.

(** ** [predict_room] ([main.py], lines 123-223) *)

(** What the handler returns: the dictionary of line 223, or the pair of
    line 185. *)
Inductive response : Type :=
| Prediction (room_name : string) (distance : float) (optional_value : pynum)
| ErrorTuple (error : string) (status : Z).

(** [ignore_measurements and measurement_id in ignore_measurements] *)
Definition ignored (ignore_measurements : option (list Z)) (mid : Z) : bool :=
  match ignore_measurements with
  | None => false
  | Some l => negb (not_list l) && existsb (Z.eqb mid) l
  end.

(** Lines 158-169: the rows of one measurement. *)
Fixpoint rows_of_measurement (db : Db) (m : Measurement.t)
                             (links : list MeasurementRouter.t)
  : exn + list Row.t :=
  match links with
  | [] => inr []
  | router :: rest =>
      match query_router_by_id db (MeasurementRouter.router_id router) with
      | None => inl (AttributeError
                       "'NoneType' object has no attribute 'bssid'")
      | Some router_info =>
          match rows_of_measurement db m rest with
          | inl e => inl e
          | inr rows =>
              inr (Row.mk (Measurement.measurement_id m)
                          (Measurement.timestamp m)
                          (Measurement.device_id m)
                          (Measurement.room_id m)
                          (Router.bssid router_info)
                          (Router.ssid router_info)
                          (MeasurementRouter.signal_strength router) :: rows)
          end
      end
  end.

(** Lines 150-169: [result]. *)
Fixpoint collect_result (db : Db) (ignore_measurements : option (list Z))
                        (ms : list Measurement.t) : exn + list Row.t :=
  match ms with
  | [] => inr []
  | measurement :: rest =>
      if ignored ignore_measurements (Measurement.measurement_id measurement)
      then collect_result db ignore_measurements rest
      else
        match rows_of_measurement db measurement
                (query_measurement_routers db
                   (Measurement.measurement_id measurement)) with
        | inl e => inl e
        | inr rows =>
            match collect_result db ignore_measurements rest with
            | inl e => inl e
            | inr more => inr (rows ++ more)
            end
        end
  end.

Definition recognized_algorithms : list string :=
  ["knn_sorensen"; "knn_euclidean"; "random_forest"; "svm_linear"; "svm_rbf"].

Definition recognized (algorithm : option string) : bool :=
  match algorithm with
  | None => false
  | Some a => existsb (String.eqb a) recognized_algorithms
  end.

(** [v == 'name'] for an optional string [v]. *)
Definition py_eq (v : option string) (name : string) : bool :=
  match v with
  | None => false
  | Some a => String.eqb a name
  end.

Section PredictRoom.
Variable U : Utils.
Local Open Scope handler_scope.

(** Lines 173-180: the three optional filters. *)
Definition filter_rooms (data : PredictData.t) (received_data : Received U)
                        (rooms : Rooms U) : M (Rooms U) :=
  rooms <- (match PredictData.use_remove_unreceived_bssids data with
            | Some true =>
                invoke Call_remove_unreceived_bssids
                       (remove_unreceived_bssids U rooms received_data)
            | _ => ret rooms
            end) ;;
  rooms <- (if py_eq (PredictData.router_selection data) "eduroam"
            then invoke Call_remove_non_eduroam_bssids
                        (remove_non_eduroam_bssids U rooms)
            else ret rooms) ;;
  match PredictData.router_presence_threshold data with
  | None => raise (TypeError
      "'>' not supported between instances of 'NoneType' and 'int'")
  | Some router_presence_threshold =>
      if (0 <? router_presence_threshold)%float
      then invoke (Call_remove_rare_routers router_presence_threshold)
                  (remove_rare_routers U rooms router_presence_threshold)
      else ret rooms
  end.

(** Lines 126-182: from the request and the tables to the feature matrix
    [X], its labels [y] and its columns [mac_address_list]. *)
Definition training_data (data : PredictData.t) (db : Db)
  : M (Received U * (ndarray cell * list Z * list string)) :=
  if not_list (PredictData.routers data)
  then raise (HTTPException 400 "Missing data")
  else
    received_data <- invoke Call_process_received_data
                       (process_received_data U (PredictData.routers data)) ;;
    result <- lift (collect_result db (PredictData.ignore_measurements data)
                                   (measurements db)) ;;
    rooms <- invoke Call_process_fingerprint_data
               (process_fingerprint_data U result) ;;
    rooms <- filter_rooms data received_data rooms ;;
    Xy <- invoke Call_prepare_data (prepare_data U rooms) ;;
    ret (received_data, Xy).

(** Line 189: [min(X.min(), X_new.min())]. *)
Definition min_rssi (X X_new : ndarray cell) : exn + cell :=
  match np_min X with
  | inl e => inl e
  | inr a =>
      match np_min X_new with
      | inl e => inl e
      | inr b => inr (py_min a b)
      end
  end.

(** Lines 187-192: imputation, query vector, threshold and scaling. *)
Definition condition (data : PredictData.t) (received_data : Received U)
                     (X : ndarray cell) (mac_address_list : list string)
  : M (ndarray (Scaled U) * ndarray (Scaled U)) :=
  X <- invoke Call_handle_missing_values
         (handle_missing_values U X mac_address_list received_data
            (PredictData.handle_missing_values_strategy data)) ;;
  X_new <- invoke Call_prepare_received_data
             (prepare_received_data U received_data mac_address_list) ;;
  min_rssi_value <- lift (min_rssi X X_new) ;;
  ' (X, X_new) <- invoke Call_handle_router_rssi_threshold
                    (handle_router_rssi_threshold U X X_new
                       (PredictData.router_rssi_threshold data)) ;;
  invoke (Call_value_scaling min_rssi_value)
         (value_scaling U X X_new min_rssi_value
            (PredictData.value_scaling_strategy data)).

(** Lines 126-192.  The result is [inl] of the value returned at line 185
    when the training data is empty, and otherwise [inr] of the two
    conditioned arrays and the labels. *)
Definition conditioned_data (data : PredictData.t) (db : Db)
  : M (response + (ndarray (Scaled U) * ndarray (Scaled U) * list Z)) :=
  ' (received_data, (X, y, mac_address_list)) <- training_data data db ;;
  if (size X =? 0)%nat || (List.length y =? 0)%nat
  then ret (inl (ErrorTuple "Training data is empty. Check the input data."
                            400))
  else
    ' (X, X_new) <- condition data received_data X mac_address_list ;;
    ret (inr (X, X_new, y)).

(** Lines 201-212: [optional_value] and the dispatch on [algorithm].  The
    first component is [None] when no branch has assigned
    [predicted_room] and [distance]. *)
Definition classify (data : PredictData.t) (X X_new : ndarray (Scaled U))
                    (y : list Z) : M (option (Z * float) * pynum) :=
  let optional_value := PyInt (-1) in
  let algorithm := PredictData.algorithm data in
  if py_eq algorithm "knn_sorensen" then
    ' (predicted_room, distance) <- invoke (Call_knn "sorensen")
        (knn U X X_new y (PredictData.k_value data) "sorensen"
             (PredictData.weights data)) ;;
    ret (Some (predicted_room, distance), optional_value)
  else if py_eq algorithm "knn_euclidean" then
    ' (predicted_room, distance) <- invoke (Call_knn "euclidean")
        (knn U X X_new y (PredictData.k_value data) "euclidean"
             (PredictData.weights data)) ;;
    ret (Some (predicted_room, distance), optional_value)
  else if py_eq algorithm "random_forest" then
    ' (predicted_room, distance) <- invoke Call_random_forest
        (random_forest U X X_new y (PredictData.n_estimators data)
             (PredictData.max_depth data)) ;;
    ret (Some (predicted_room, distance), optional_value)
  else if py_eq algorithm "svm_linear" then
    ' (predicted_room, distance, optional_value) <- invoke (Call_svm "linear")
        (svm U X X_new y (PredictData.c_value data) "linear"
             (PredictData.gamma_value data)) ;;
    ret (Some (predicted_room, distance), optional_value)
  else if py_eq algorithm "svm_rbf" then
    ' (predicted_room, distance, optional_value) <- invoke (Call_svm "rbf")
        (svm U X X_new y (PredictData.c_value data) "rbf"
             (PredictData.gamma_value data)) ;;
    ret (Some (predicted_room, distance), optional_value)
  else ret (None, optional_value).

(** Lines 126-212. *)
Definition classified (data : PredictData.t) (db : Db)
  : M (response + (option (Z * float) * pynum)) :=
  r <- conditioned_data data db ;;
  match r with
  | inl early => ret (inl early)
  | inr (X, X_new, y) =>
      if (size X_new =? 0)%nat
      then raise (ValueError "Received data is empty. Check the input data.")
      else
        c <- classify data X X_new y ;;
        ret (inr c)
  end.

(** The handler.  Line 214 reads [predicted_room], which is unbound when
    no branch of the dispatch was taken. *)
Definition predict_room (data : PredictData.t) (db : Db) : M response :=
  r <- classified data db ;;
  match r with
  | inl early => ret early
  | inr (None, _) => raise (UnboundLocalError "predicted_room")
  | inr (Some (predicted_room, distance), optional_value) =>
      let room_name := handle_get_room_name_by_id predicted_room db in
      ret (Prediction room_name distance optional_value)
  end.
End PredictRoom.

(** ** An executable [utils], after the written specification *)

Module SpecUtils.

(** Modelled from the spec: the FingerprintRecord of section 3, one
    sample's readings with its room (the module [utils] that builds it is
    not among the sources).  A reading keeps the network name next to the
    access point, for the lookup of the network-name filter. *)
Record FingerprintRecord := mkRecord {
  measurement_id : Z;
  room_id : Z;
  readings : list (string * string * Z)
}.

Definition reading_bssid (r : string * string * Z) : string := fst (fst r).
Definition reading_ssid (r : string * string * Z) : string := snd (fst r).
Definition reading_rssi (r : string * string * Z) : Z := snd r.

(** Modelled from the spec: the weak-signal sentinel of section 4.4, "the
    lowest possible signal value" (a constant of [utils], which is
    missing). *)
Definition weak_signal : Z := -100.

(** Modelled from the spec: the LiveScan of section 3, the entries of the
    request keyed by bssid ([utils.process_received_data] is missing). *)
Definition process_received_data (routers : list RouterData.t)
  : list RouterData.t := routers.

Definition heard (received_data : list RouterData.t) (b : string)
  : option Z :=
  option_map RouterData.signal_strength
    (find (fun r => String.eqb (RouterData.bssid r) b) received_data).

(** Modelled from the spec: section 4.1, FingerprintAggregator
    ([utils.process_fingerprint_data] is missing): one record per distinct
    [measurement_id], carrying the room and the readings of its rows. *)
Fixpoint add_row (row : Row.t) (rooms : list FingerprintRecord)
  : list FingerprintRecord :=
  let reading := match Row.signal_strength row with
                 | Some s => [(Row.bssid row, Row.ssid row, s)]
                 | None => []
                 end in
  match rooms with
  | [] => [mkRecord (Row.measurement_id row) (Row.room_id row) reading]
  | r :: rest =>
      if measurement_id r =? Row.measurement_id row
      then mkRecord (measurement_id r) (room_id r) (readings r ++ reading)
           :: rest
      else r :: add_row row rest
  end.

Definition process_fingerprint_data (result : list Row.t)
  : list FingerprintRecord :=
  fold_left (fun rooms row => add_row row rooms) result [].

Definition keep (p : string * string * Z -> bool)
                (rooms : list FingerprintRecord) : list FingerprintRecord :=
  map (fun r => mkRecord (measurement_id r) (room_id r)
                         (filter p (readings r))) rooms.

(** Modelled from the spec: section 4.2, unseen filter
    ([utils.remove_unreceived_bssids] is missing). *)
Definition remove_unreceived_bssids (rooms : list FingerprintRecord)
                                    (received_data : list RouterData.t)
  : list FingerprintRecord :=
  keep (fun rd => match heard received_data (reading_bssid rd) with
                  | Some _ => true | None => false end) rooms.

(** Modelled from the spec: section 4.2, network-name filter
    ([utils.remove_non_eduroam_bssids] is missing). *)
Definition remove_non_eduroam_bssids (rooms : list FingerprintRecord)
  : list FingerprintRecord :=
  keep (fun rd => String.eqb (reading_ssid rd) "eduroam") rooms.

Definition float_of_Z (z : Z) : float :=
  if z <? 0 then PrimFloat.opp (PrimFloat.of_uint63 (Uint63.of_Z (- z)))
  else PrimFloat.of_uint63 (Uint63.of_Z z).

Definition has_bssid (b : string) (r : FingerprintRecord) : bool :=
  existsb (fun rd => String.eqb (reading_bssid rd) b) (readings r).

(** The fraction of the records in which [b] appears. *)
Definition presence (rooms : list FingerprintRecord) (b : string) : float :=
  (float_of_Z (Z.of_nat (List.length (filter (has_bssid b) rooms)))
   / float_of_Z (Z.of_nat (List.length rooms)))%float.

(** Modelled from the spec: section 4.2, rarity filter
    ([utils.remove_rare_routers] is missing): a bssid is dropped when its
    presence fraction is strictly below the threshold. *)
Definition remove_rare_routers (rooms : list FingerprintRecord)
                               (threshold : float)
  : list FingerprintRecord :=
  keep (fun rd => negb (presence rooms (reading_bssid rd) <? threshold)%float)
       rooms.

Fixpoint dedup (l : list string) : list string :=
  match l with
  | [] => []
  | x :: t => x :: filter (fun y => negb (String.eqb x y)) (dedup t)
  end.

Definition lookup (b : string) (r : FingerprintRecord) : cell :=
  option_map reading_rssi
    (find (fun rd => String.eqb (reading_bssid rd) b) (readings r)).

(** Modelled from the spec: section 4.3, FeatureMatrixBuilder
    ([utils.prepare_data] is missing): the columns are the bssids of the
    retained records in the order of their first occurrence. *)
Definition prepare_data (rooms : list FingerprintRecord)
  : ndarray cell * list Z * list string :=
  let mac_address_list :=
    dedup (map reading_bssid (List.concat (map readings rooms))) in
  (map (fun r => map (fun b => lookup b r) mac_address_list) rooms,
   map room_id rooms,
   mac_address_list).

(** Modelled from the spec: section 4.4, MissingValueImputer
    ([utils.handle_missing_values] is missing). *)
Definition handle_missing_values (X : ndarray cell)
    (mac_address_list : list string) (received_data : list RouterData.t)
    (strategy : option string) : ndarray cell :=
  let fill (c : cell) (b : string) : cell :=
    match c with
    | Some v => Some v
    | None =>
        if py_eq strategy "use_received"
        then match heard received_data b with
             | Some v => Some v
             | None => Some weak_signal
             end
        else Some weak_signal
    end in
  map (fun row =>
         map (fun cb => fill (fst cb) (snd cb))
             (combine row mac_address_list)) X.

(** Modelled from the spec: section 4.3, the QueryVector
    ([utils.prepare_received_data] is missing). *)
Definition prepare_received_data (received_data : list RouterData.t)
    (mac_address_list : list string) : ndarray cell :=
  [map (heard received_data) mac_address_list].

Definition clamp (threshold : Z) (c : cell) : cell :=
  match c with
  | Some v => if v <? threshold then Some threshold else Some v
  | None => None
  end.

(** Modelled from the spec: section 4.5, threshold
    ([utils.handle_router_rssi_threshold] is missing). *)
Definition handle_router_rssi_threshold (X X_new : ndarray cell)
    (router_rssi_threshold : option Z)
  : exn + (ndarray cell * ndarray cell) :=
  match router_rssi_threshold with
  | None => inl (TypeError
      "'<' not supported between instances of 'float' and 'NoneType'")
  | Some t => inr (map (map (clamp t)) X, map (map (clamp t)) X_new)
  end.

Definition shift (min_rssi_value : cell) (c : cell) : cell :=
  match c, min_rssi_value with
  | Some v, Some m => Some (v - m)
  | _, _ => None
  end.

(** Modelled from the spec: section 4.5, scaling ([utils.value_scaling] is
    missing): [none] leaves the values unchanged; for the other strategy
    names the specification fixes no formula and gives the shift by
    [min_rssi_value] as its example, which is what is done here. *)
Definition value_scaling (X X_new : ndarray cell) (min_rssi_value : cell)
    (value_scaling_strategy : option string)
  : ndarray cell * ndarray cell :=
  if py_eq value_scaling_strategy "none" then (X, X_new)
  else (map (map (shift min_rssi_value)) X,
        map (map (shift min_rssi_value)) X_new).

(** *** Section 4.6: the nearest-neighbour strategies, in binary64 *)

Definition to_float (c : cell) : float :=
  match c with Some v => float_of_Z v | None => nan end.

Definition fsum (l : list float) : float :=
  fold_left (fun s x => (s + x)%float) l 0%float.

(** [1 - 2 * sum min(x_i, y_i) / sum (x_i + y_i)], over the columns where
    at least one side is non-zero. *)
Definition sorensen (x y : list float) : float :=
  let cols := filter (fun p => negb ((fst p =? 0) && (snd p =? 0))%float)
                     (combine x y) in
  (1 - 2 * fsum (map (fun p => if (snd p <? fst p)%float
                               then snd p else fst p) cols)
       / fsum (map (fun p => fst p + snd p) cols))%float.

Definition euclidean (x y : list float) : float :=
  PrimFloat.sqrt
    (fsum (map (fun p => (fst p - snd p) * (fst p - snd p)) (combine x y)))%float.

(** Insertion of a neighbour into a list sorted by distance, after the
    neighbours that are at most as far. *)
Fixpoint insert_by_distance (n : float * Z) (l : list (float * Z))
  : list (float * Z) :=
  match l with
  | [] => [n]
  | m :: t => if (fst n <? fst m)%float then n :: m :: t
              else m :: insert_by_distance n t
  end.

Definition nearest (k : nat) (neighbours : list (float * Z))
  : list (float * Z) :=
  firstn k (fold_left (fun acc n => insert_by_distance n acc) neighbours []).

Definition labels_of (l : list (float * Z)) : list Z :=
  fold_right (fun n acc => if existsb (Z.eqb (snd n)) acc then acc
                           else snd n :: acc) [] l.

(** The weight of the votes of a label and the sum of the distances of its
    voters. *)
Definition epsilon : float := (1 / 100000)%float.

Definition tally (distance_weighted : bool) (selected : list (float * Z))
                 (label : Z) : float * float :=
  let voters := filter (fun n => snd n =? label) selected in
  (fsum (map (fun n => if distance_weighted
                       then (1 / (fst n + epsilon))%float
                       else 1%float) voters),
   fsum (map fst voters)).

(** Plurality vote; among labels with equal votes, the smallest sum of
    distances. *)
Definition vote (distance_weighted : bool) (selected : list (float * Z))
  : option Z :=
  fold_left
    (fun best label =>
       match best with
       | None => Some label
       | Some b =>
           let (wb, db) := tally distance_weighted selected b in
           let (wl, dl) := tally distance_weighted selected label in
           if (wb <? wl)%float || ((wb =? wl) && (dl <? db))%float
           then Some label else Some b
       end)
    (labels_of selected) None.

(** Modelled from the spec: section 4.6, the two k-nearest-neighbour
    strategies ([utils.knn] is missing). *)
Definition knn (X X_new : ndarray cell) (y : list Z) (k_value : option Z)
               (metric : string) (weights : option string)
  : exn + (Z * float) :=
  match k_value with
  | None => inl (TypeError "k_value must be an integer")
  | Some k =>
      let query := map to_float (hd [] X_new) in
      let dist := if String.eqb metric "sorensen" then sorensen
                  else euclidean in
      let neighbours :=
        combine (map (fun row => dist (map to_float row) query) X) y in
      let selected := nearest (Z.to_nat k) neighbours in
      match vote (py_eq weights "distance") selected with
      | None => inl (ValueError "no neighbour selected")
      | Some label =>
          inr (label,
               (fsum (map fst selected)
                / float_of_Z (Z.of_nat (List.length selected)))%float)
      end
  end.

End SpecUtils.

(** Modelled from the spec: the thirteen functions of [utils].  The
    ensemble-tree and margin classifiers of section 4.6 train a statistical
    model, for which the specification gives no algorithm; this instance
    does not provide them. *)
Definition spec_utils : Utils := {|
  Received := list RouterData.t;
  Rooms := list SpecUtils.FingerprintRecord;
  Scaled := cell;
  process_received_data := fun r => inr (SpecUtils.process_received_data r);
  process_fingerprint_data :=
    fun rows => inr (SpecUtils.process_fingerprint_data rows);
  remove_unreceived_bssids :=
    fun rooms rec => inr (SpecUtils.remove_unreceived_bssids rooms rec);
  remove_non_eduroam_bssids :=
    fun rooms => inr (SpecUtils.remove_non_eduroam_bssids rooms);
  remove_rare_routers :=
    fun rooms t => inr (SpecUtils.remove_rare_routers rooms t);
  prepare_data := fun rooms => inr (SpecUtils.prepare_data rooms);
  handle_missing_values :=
    fun X macs rec s => inr (SpecUtils.handle_missing_values X macs rec s);
  prepare_received_data :=
    fun rec macs => inr (SpecUtils.prepare_received_data rec macs);
  handle_router_rssi_threshold := SpecUtils.handle_router_rssi_threshold;
  value_scaling :=
    fun X X_new m s => inr (SpecUtils.value_scaling X X_new m s);
  knn := SpecUtils.knn;
  random_forest :=
    fun _ _ _ _ _ => inl (NotImplementedError "random_forest");
  svm := fun _ _ _ _ _ _ => inl (NotImplementedError "svm")
|}.

(** ** Vocabulary of the properties *)

(** The three router filters of lines 173-180. *)
Definition is_filter_call (c : call) : bool :=
  match c with
  | Call_remove_unreceived_bssids
  | Call_remove_non_eduroam_bssids
  | Call_remove_rare_routers _ => true
  | _ => false
  end.

(** The three classifiers of lines 203-212. *)
Definition is_classifier_call (c : call) : bool :=
  match c with
  | Call_knn _ | Call_random_forest | Call_svm _ => true
  | _ => false
  end.

(** What comes after the feature matrix: imputation, the query vector, the
    two conditioning transforms and the classifiers. *)
Definition is_downstream_call (c : call) : bool :=
  match c with
  | Call_handle_missing_values
  | Call_prepare_received_data
  | Call_handle_router_rssi_threshold
  | Call_value_scaling _ => true
  | _ => is_classifier_call c
  end.

(** The unseen filter is requested: [use_remove_unreceived_bssids] is set. *)
Definition unseen_enabled (data : PredictData.t) : bool :=
  match PredictData.use_remove_unreceived_bssids data with
  | Some true => true
  | _ => false
  end.

(** The network-name filter is requested: [router_selection] is
    ['eduroam']. *)
Definition network_name_enabled (data : PredictData.t) : bool :=
  py_eq (PredictData.router_selection data) "eduroam".

(** The filters that a request enables, in the order unseen, network name,
    rarity. *)
Definition enabled_filters (data : PredictData.t) : list call :=
  (if unseen_enabled data then [Call_remove_unreceived_bssids] else [])
  ++ (if network_name_enabled data then [Call_remove_non_eduroam_bssids]
      else [])
  ++ (match PredictData.router_presence_threshold data with
      | Some t => if (0 <? t)%float then [Call_remove_rare_routers t] else []
      | None => []
      end).

(** One optional stage of the chain: [f] applied to [input] when the stage
    is enabled, [input] itself otherwise. *)
Definition stage {A} (enabled : bool) (f : A -> exn + A) (input out : A)
  : Prop :=
  if enabled then f input = inr out else out = input.

(** A matrix with zero rows or zero columns. *)
Definition zero_rows_or_columns {A} (X : ndarray A) : Prop :=
  X = [] \/ Forall (fun row => row = []) X.


(** The request [data] with another algorithm name. *)
Definition with_algorithm (data : PredictData.t) (a : option string)
  : PredictData.t :=
  PredictData.mk
    (PredictData.routers data) (PredictData.ignore_measurements data)
    (PredictData.use_remove_unreceived_bssids data)
    (PredictData.handle_missing_values_strategy data)
    (PredictData.router_selection data)
    (PredictData.router_presence_threshold data)
    (PredictData.value_scaling_strategy data)
    (PredictData.router_rssi_threshold data)
    a
    (PredictData.k_value data) (PredictData.weights data)
    (PredictData.n_estimators data) (PredictData.c_value data)
    (PredictData.gamma_value data) (PredictData.max_depth data).

(** The range of [datetime]: the years 1 to 9999. *)
Definition is_datetime (t : Z) : Prop :=
  -62135596800 <= t <= 253402300799.


(** The four fields that line 70 tests. *)
Definition missing_data (data : MeasurementData.t) : Prop :=
  MeasurementData.room_name data = ""
  \/ MeasurementData.device_id data = ""
  \/ MeasurementData.timestamp data = 0
  \/ MeasurementData.routers data = [].

(** ** Sample data: two rooms with one sample each *)

Definition scan (b : string) (s : Z) : RouterData.t :=
  RouterData.mk "eduroam" b s.

Definition two_rooms : Db :=
  mkDb [Room.mk 1 "101" None None None None;
        Room.mk 2 "102" None None None None]
       [Measurement.mk 1 1000 "dev" 1; Measurement.mk 2 2000 "dev" 2]
       [Router.mk 1 "eduroam" "AA"; Router.mk 2 "eduroam" "BB"]
       [MeasurementRouter.mk 1 1 (Some (-40));
        MeasurementRouter.mk 1 2 (Some (-60));
        MeasurementRouter.mk 2 1 (Some (-80));
        MeasurementRouter.mk 2 2 (Some (-45))].

Definition live_scan : list RouterData.t := [scan "AA" (-42); scan "BB" (-58)].



(** A request at the epoch, complete otherwise. *)
Definition epoch_sample : MeasurementData.t :=
  MeasurementData.mk "101" "dev" 0 [scan "AA" (-50)].

(** Scenario A of the specification: nearest neighbour, [k = 1], Euclidean
    metric, no filter, no scaling. *)
Definition scenario_A : PredictData.t :=
  PredictData.mk live_scan None (Some false) (Some "use_received")
    (Some "all") (Some 0%float) (Some "none") (Some (-100))
    (Some "knn_euclidean") (Some 1) (Some "uniform") (Some 300)
    (Some 1%float) (Some 1%float) None.

(** Scenario D: an algorithm name that the dispatch does not know. *)
Definition scenario_D : PredictData.t :=
  with_algorithm scenario_A (Some "unknown_algo").

(** Scenario C: no router in the request. *)
Definition scenario_C : PredictData.t := PredictData.defaults [].

(** A scan that hears none of the stored access points; with the default
    unseen filter no column is left. *)
Definition unheard_scan : PredictData.t :=
  PredictData.defaults [scan "CC" (-58)].

(** All three filters enabled. *)
Definition all_filters : PredictData.t :=
  PredictData.mk live_scan None (Some true) (Some "use_received")
    (Some "eduroam") (Some 0.5%float) (Some "none") (Some (-100))
    (Some "knn_euclidean") (Some 1) (Some "uniform") (Some 300)
    (Some 1%float) (Some 1%float) None.

(** The samples of [two_rooms] after the rooms themselves are gone. *)
Definition rooms_deleted : Db :=
  mkDb [] (measurements two_rooms) (routers two_rooms)
       (measurement_router two_rooms).

(** A [utils] whose scaling returns a query vector without elements: the
    only way to reach the test of line 194 with an empty [X_new]. *)
Definition losing_utils : Utils := {|
  Received := Received spec_utils;
  Rooms := Rooms spec_utils;
  Scaled := Scaled spec_utils;
  process_received_data := process_received_data spec_utils;
  process_fingerprint_data := process_fingerprint_data spec_utils;
  remove_unreceived_bssids := remove_unreceived_bssids spec_utils;
  remove_non_eduroam_bssids := remove_non_eduroam_bssids spec_utils;
  remove_rare_routers := remove_rare_routers spec_utils;
  prepare_data := prepare_data spec_utils;
  handle_missing_values := handle_missing_values spec_utils;
  prepare_received_data := prepare_received_data spec_utils;
  handle_router_rssi_threshold := handle_router_rssi_threshold spec_utils;
  value_scaling := fun X _ _ _ => inr (X, [[]]);
  knn := knn spec_utils;
  random_forest := random_forest spec_utils;
  svm := svm spec_utils
|}.

(** Scenario B: the second sample did not hear BB, and the rarity threshold
    is 1. *)
Definition bb_heard_once : Db :=
  mkDb (rooms two_rooms) (measurements two_rooms) (routers two_rooms)
       [MeasurementRouter.mk 1 1 (Some (-40));
        MeasurementRouter.mk 1 2 (Some (-60));
        MeasurementRouter.mk 2 1 (Some (-80))].

Definition scenario_B : PredictData.t :=
  PredictData.mk live_scan None (Some false) (Some "use_received")
    (Some "all") (Some 1%float) (Some "none") (Some (-100))
    (Some "knn_euclidean") (Some 1) (Some "uniform") (Some 300)
    (Some 1%float) (Some 1%float) None.

(** ** [get_all_measurements] ([main.py], lines 225-260) *)

(** One element of [router_data] (lines 242-246). *)
Module RouterEntry.
Record t := mk {
  bssid : string;
  ssid : string;
  signal_strength : option Z
}.
End RouterEntry.

(** One element of [result] (lines 251-258). *)
Module MeasurementEntry.
Record t := mk {
  measurement_id : Z;
  timestamp : Z;
  device_id : string;
  room_id : Z;
  room_name : string;
  routers : list RouterEntry.t
}.
End MeasurementEntry.

(** Lines 228-234: the measurements joined with their rooms on [room_id],
    listed measurement by measurement. *)
Definition joined_measurements (db : Db) : list (Measurement.t * string) :=
  flat_map
    (fun m =>
       map (fun r => (m, Room.room_name r))
           (filter (fun r => Room.room_id r =? Measurement.room_id m)
                   (rooms db)))
    (measurements db).

(** Lines 240-246: [router_data] of one measurement. *)
Fixpoint router_entries (db : Db) (links : list MeasurementRouter.t)
  : exn + list RouterEntry.t :=
  match links with
  | [] => inr []
  | router :: rest =>
      match query_router_by_id db (MeasurementRouter.router_id router) with
      | None => inl (AttributeError
                       "'NoneType' object has no attribute 'bssid'")
      | Some router_info =>
          match router_entries db rest with
          | inl e => inl e
          | inr entries =>
              inr (RouterEntry.mk (Router.bssid router_info)
                                  (Router.ssid router_info)
                                  (MeasurementRouter.signal_strength router)
                   :: entries)
          end
      end
  end.

(** Lines 237-258: the loop over the joined rows.  [timestamp_of] is
    [int(dt.timestamp())] on the server: a naive [datetime] is read there as
    local time, so the function depends on the time zone of the process. *)
Fixpoint measurement_entries (timestamp_of : datetime -> exn + Z) (db : Db)
                             (l : list (Measurement.t * string))
  : exn + list MeasurementEntry.t :=
  match l with
  | [] => inr []
  | (measurement, room_name) :: rest =>
      match router_entries db
              (query_measurement_routers db
                 (Measurement.measurement_id measurement)) with
      | inl e => inl e
      | inr router_data =>
          match timestamp_of (Measurement.timestamp measurement) with
          | inl e => inl e
          | inr timestamp_seconds =>
              match measurement_entries timestamp_of db rest with
              | inl e => inl e
              | inr result =>
                  inr (MeasurementEntry.mk
                         (Measurement.measurement_id measurement)
                         timestamp_seconds
                         (Measurement.device_id measurement)
                         (Measurement.room_id measurement)
                         room_name router_data :: result)
              end
          end
      end
  end.

Definition get_all_measurements (timestamp_of : datetime -> exn + Z) (db : Db)
  : exn + list MeasurementEntry.t :=
  measurement_entries timestamp_of db (joined_measurements db).

(** ** Vocabulary of the further properties *)

(** An entry of the request that the loop of lines 97-117 does not skip. *)
Definition nonblank (e : RouterData.t) : bool :=
  negb (not_str (RouterData.bssid e)).

(** Every table of [db'] starts with the rows of [db]. *)
Definition extends (db db' : Db) : Prop :=
  (exists l, rooms db' = rooms db ++ l)
  /\ (exists l, measurements db' = measurements db ++ l)
  /\ (exists l, routers db' = routers db ++ l)
  /\ (exists l, measurement_router db' = measurement_router db ++ l).

(** The constraints that [models.py] declares on single tables: the primary
    keys, the two [unique=True] columns and the composite key of the link
    table. *)
Definition unique_keys (db : Db) : Prop :=
  NoDup (map Room.room_id (rooms db))
  /\ NoDup (map Room.room_name (rooms db))
  /\ NoDup (map Measurement.measurement_id (measurements db))
  /\ NoDup (map Router.router_id (routers db))
  /\ NoDup (map Router.bssid (routers db))
  /\ mr_keys_distinct (measurement_router db) = true.

(** The three [ForeignKey] columns of [models.py]. *)
Definition foreign_keys (db : Db) : Prop :=
  (forall m, In m (measurements db) ->
     exists room, In room (rooms db)
                  /\ Room.room_id room = Measurement.room_id m)
  /\ (forall link, In link (measurement_router db) ->
        (exists m, In m (measurements db)
                   /\ Measurement.measurement_id m
                      = MeasurementRouter.measurement_id link)
        /\ (exists r, In r (routers db)
                      /\ Router.router_id r
                         = MeasurementRouter.router_id link)).

(** No two stored measurements have the same device and time. *)
Definition unique_samples (db : Db) : Prop :=
  NoDup (map (fun m => (Measurement.device_id m, Measurement.timestamp m))
             (measurements db)).

(** The request [data] with another list of routers. *)
Definition with_routers (data : MeasurementData.t) (rs : list RouterData.t)
  : MeasurementData.t :=
  MeasurementData.mk (MeasurementData.room_name data)
                     (MeasurementData.device_id data)
                     (MeasurementData.timestamp data) rs.

(** [link] is the row that lines 112-116 build for the entry [e] of a
    request, for measurement [mid] and the router that [db] holds for the
    entry's bssid. *)
Definition link_of (mid : Z) (db : Db) (e : RouterData.t)
                   (link : MeasurementRouter.t) : Prop :=
  exists router,
    find (fun r => String.eqb (Router.bssid r) (RouterData.bssid e))
         (routers db) = Some router
    /\ link = MeasurementRouter.mk mid (Router.router_id router)
                                   (Some (RouterData.signal_strength e)).

(** The test of line 83 on the tables [db]. *)
Definition find_sample (data : MeasurementData.t) (db : Db)
  : option Measurement.t :=
  find (fun m => String.eqb (Measurement.device_id m)
                            (MeasurementData.device_id data)
                 && (Measurement.timestamp m
                     =? MeasurementData.timestamp data))
       (measurements db).

(** The test of line 74 on the tables [db]. *)
Definition find_room (data : MeasurementData.t) (db : Db) : option Room.t :=
  find (fun r => String.eqb (Room.room_name r)
                            (MeasurementData.room_name data))
       (rooms db).

(** The ways in which lines 81-121 can end, from the tables [db1] that hold
    the room [room] of the request: [res] and [db'] are what the handler
    gives and leaves. *)
Definition ends_from_room (data : MeasurementData.t) (room : Room.t)
                          (db1 : Db) (res : exn + string) (db' : Db) : Prop :=
  (~ is_datetime (MeasurementData.timestamp data)
   /\ res = inl (ValueError "year is out of range") /\ db' = db1)
  \/ (is_datetime (MeasurementData.timestamp data)
      /\ (exists m, find_sample data db1 = Some m)
      /\ res = inl (HTTPException 409
           "Measurement with the same device_id and timestamp already exists")
      /\ db' = db1)
  \/ (is_datetime (MeasurementData.timestamp data)
      /\ find_sample data db1 = None
      /\ exists m db2,
           add_measurement_row (MeasurementData.timestamp data)
             (MeasurementData.device_id data) (Room.room_id room) db1
           = (inr m, db2)
           /\ ((exists e,
                  add_routers (Measurement.measurement_id m)
                    (MeasurementData.routers data) [] db2 = (inl e, db')
                  /\ res = inl e)
               \/ (exists pending db3,
                     add_routers (Measurement.measurement_id m)
                       (MeasurementData.routers data) [] db2
                     = (inr pending, db3)
                     /\ ((exists e, commit None pending db3 = (inl e, db')
                                    /\ res = inl e)
                         \/ (commit None pending db3 = (inr tt, db')
                             /\ res = inr "Measurement added successfully"))))).

(** A new sample in a new room, hearing a stored and a new access point. *)
Definition new_sample : MeasurementData.t :=
  MeasurementData.mk "103" "dev" 3000
    [scan "AA" (-50); RouterData.mk "guest" "CC" (-70)].

Definition new_sample_stored : Db := snd (add_measurement new_sample two_rooms).


(** Samples with an entry without bssid. *)
Definition blank_first : MeasurementData.t :=
  MeasurementData.mk "101" "dev" 3000 [scan "" (-50); scan "AA" (-51)].


(** A sample that hears AA under another network name. *)
Definition renamed_router : MeasurementData.t :=
  MeasurementData.mk "101" "dev" 3000 [RouterData.mk "guest" "AA" (-50)].


(** The row that lines 161-169 append for a measurement, one of its link
    rows and the router of that link row. *)
Definition row_of (m : Measurement.t) (link : MeasurementRouter.t)
                  (router : Router.t) : Row.t :=
  Row.mk (Measurement.measurement_id m) (Measurement.timestamp m)
         (Measurement.device_id m) (Measurement.room_id m)
         (Router.bssid router) (Router.ssid router)
         (MeasurementRouter.signal_strength link).

(** Every link row points to a stored router. *)
Definition routers_resolve (db : Db) : Prop :=
  forall link, In link (measurement_router db) ->
    exists router,
      query_router_by_id db (MeasurementRouter.router_id link) = Some router.

(** Two states of the tables that differ at most in their rooms. *)
Definition same_samples (db db' : Db) : Prop :=
  measurements db = measurements db'
  /\ routers db = routers db'
  /\ measurement_router db = measurement_router db'.

(** The call of the classifier that the dispatch makes for an algorithm
    name. *)
Definition classifier_call (algorithm : option string) (c : call) : Prop :=
  algorithm = Some "knn_sorensen" /\ c = Call_knn "sorensen"
  \/ algorithm = Some "knn_euclidean" /\ c = Call_knn "euclidean"
  \/ algorithm = Some "random_forest" /\ c = Call_random_forest
  \/ algorithm = Some "svm_linear" /\ c = Call_svm "linear"
  \/ algorithm = Some "svm_rbf" /\ c = Call_svm "rbf".

(** A [utils] whose query vector has no element. *)
Definition deaf_utils : Utils := {|
  Received := Received spec_utils;
  Rooms := Rooms spec_utils;
  Scaled := Scaled spec_utils;
  process_received_data := process_received_data spec_utils;
  process_fingerprint_data := process_fingerprint_data spec_utils;
  remove_unreceived_bssids := remove_unreceived_bssids spec_utils;
  remove_non_eduroam_bssids := remove_non_eduroam_bssids spec_utils;
  remove_rare_routers := remove_rare_routers spec_utils;
  prepare_data := prepare_data spec_utils;
  handle_missing_values := handle_missing_values spec_utils;
  prepare_received_data := fun _ _ => inr [[]];
  handle_router_rssi_threshold := handle_router_rssi_threshold spec_utils;
  value_scaling := value_scaling spec_utils;
  knn := knn spec_utils;
  random_forest := random_forest spec_utils;
  svm := svm spec_utils
|}.

(** A scan that hears AA only, and weakly, with the unseen filter off. *)
Definition half_heard : PredictData.t :=
  PredictData.mk [scan "AA" (-95)] None (Some false) (Some "use_received")
    (Some "all") (Some 0%float) (Some "none") (Some (-100))
    (Some "knn_euclidean") (Some 1) (Some "uniform") (Some 300)
    (Some 1%float) (Some 1%float) None.

(** Scenario A with an explicit [null] for the rarity threshold. *)
Definition null_threshold : PredictData.t :=
  PredictData.mk live_scan None (Some false) (Some "use_received")
    (Some "all") None (Some "none") (Some (-100))
    (Some "knn_euclidean") (Some 1) (Some "uniform") (Some 300)
    (Some 1%float) (Some 1%float) None.

(** Scenario A, leaving out the second sample. *)
Definition without_second : PredictData.t :=
  PredictData.mk live_scan (Some [2]) (Some false) (Some "use_received")
    (Some "all") (Some 0%float) (Some "none") (Some (-100))
    (Some "knn_euclidean") (Some 1) (Some "uniform") (Some 300)
    (Some 1%float) (Some 1%float) None.

(** The tables of [two_rooms] with a link row to a router that is not
    stored. *)
Definition dangling_link : Db :=
  mkDb (rooms two_rooms) (measurements two_rooms) (routers two_rooms)
       (measurement_router two_rooms ++ [MeasurementRouter.mk 2 9 (Some (-70))]).

(** The measurement has a room: the join of lines 228-234 keeps it. *)
Definition has_room (db : Db) (m : Measurement.t) : bool :=
  existsb (fun r => Room.room_id r =? Measurement.room_id m) (rooms db).



(** A server whose local time is UTC: [datetime.timestamp()] gives back the
    seconds that [utcfromtimestamp] was given. *)
Definition utc_server (t : datetime) : exn + Z := inr t.

(** [rows] is what lines 158-169 append for the measurement [m]: one row
    for each of its link rows, with the router of that link row, in an
    order that the query of line 158 leaves to the database. *)
Definition rows_of_sample (db : Db) (m : Measurement.t) (rows : list Row.t)
  : Prop :=
  exists links,
    Permutation links
      (query_measurement_routers db (Measurement.measurement_id m))
    /\ Forall2 (fun link row =>
                  exists router,
                    query_router_by_id db (MeasurementRouter.router_id link)
                    = Some router
                    /\ row = row_of m link router)
               links rows.

(** The measurement is not left out by [ignore_measurements]. *)
Definition kept (ignore_measurements : option (list Z)) (m : Measurement.t)
  : bool :=
  negb (ignored ignore_measurements (Measurement.measurement_id m)).


(** A [utils] with a stand-in for the margin classifier, so that the svm
    branches of the dispatch can be run: it answers the first label, at
    distance 0.25, with decision margin 1.5. *)
Definition margin_utils : Utils := {|
  Received := Received spec_utils;
  Rooms := Rooms spec_utils;
  Scaled := Scaled spec_utils;
  process_received_data := process_received_data spec_utils;
  process_fingerprint_data := process_fingerprint_data spec_utils;
  remove_unreceived_bssids := remove_unreceived_bssids spec_utils;
  remove_non_eduroam_bssids := remove_non_eduroam_bssids spec_utils;
  remove_rare_routers := remove_rare_routers spec_utils;
  prepare_data := prepare_data spec_utils;
  handle_missing_values := handle_missing_values spec_utils;
  prepare_received_data := prepare_received_data spec_utils;
  handle_router_rssi_threshold := handle_router_rssi_threshold spec_utils;
  value_scaling := value_scaling spec_utils;
  knn := knn spec_utils;
  random_forest := random_forest spec_utils;
  svm := fun _ _ y _ _ _ => inr (hd 0 y, 0.25%float, PyFloat 1.5%float)
|}.

(** Scenario A with the margin classifier and the rbf kernel. *)
Definition svm_request : PredictData.t :=
  with_algorithm scenario_A (Some "svm_rbf").


(** ** Properties of [add_measurement] *)

Lemma not_str_true (s : string) : not_str s = true <-> s = "".
Proof. unfold not_str. apply String.eqb_eq. Qed.

Lemma not_int_true (n : Z) : not_int n = true <-> n = 0.
Proof. unfold not_int. apply Z.eqb_eq. Qed.

Lemma not_list_true {A} (l : list A) : not_list l = true <-> l = [].
Proof. destruct l; simpl; split; congruence. Qed.

Lemma missing_data_check (data : MeasurementData.t) :
  not_str (MeasurementData.room_name data)
  || not_str (MeasurementData.device_id data)
  || not_int (MeasurementData.timestamp data)
  || not_list (MeasurementData.routers data) = true
  <-> missing_data data.
Proof.
  unfold missing_data.
  rewrite !orb_true_iff, !not_str_true, not_int_true, not_list_true.
  tauto.
Qed.

Lemma commit_raises (r : option Router.t) (p : list MeasurementRouter.t)
      (db db' : Db) (e : exn) :
  commit r p db = (inl e, db') ->
  e = IntegrityError "Duplicate entry for key PRIMARY" /\ db' = db.
Proof.
  unfold commit. destruct (mr_keys_distinct _); intros H; inversion H; auto.
Qed.

Lemma add_routers_raises (mid : Z) (rs : list RouterData.t) :
  forall pending db db' e,
    add_routers mid rs pending db = (inl e, db') ->
    e = IntegrityError "Duplicate entry for key PRIMARY".
Proof.
  induction rs as [|r rest IH]; intros pending db db' e; simpl.
  - unfold sret. discriminate.
  - destruct (not_str (RouterData.bssid r)); [apply IH|].
    unfold sbind, query_router_by_bssid.
    destruct (find _ (routers db)) as [router|]; [apply IH|].
    destruct (commit _ pending db) as [[e0|[]] db0] eqn:Hc.
    + intros H. inversion H; subst.
      now destruct (commit_raises _ _ _ _ _ Hc).
    + apply IH.
Qed.

(** C9.  A request whose [timestamp] is 0 is rejected with HTTP 400
    "Missing data" and leaves the tables as they were; more generally the
    test of line 70 rejects a request exactly when [room_name] or
    [device_id] is the empty string, [timestamp] is 0 or [routers] is the
    empty list, and no other path of the handler answers 400. *)
Theorem C9_zero_timestamp_is_missing_data (data : MeasurementData.t) (db : Db) :
  (MeasurementData.timestamp data = 0 ->
   add_measurement data db = (inl (HTTPException 400 "Missing data"), db))
  /\ (missing_data data <->
      add_measurement data db = (inl (HTTPException 400 "Missing data"), db))
  /\ (forall detail db',
        add_measurement data db = (inl (HTTPException 400 detail), db') ->
        missing_data data).
Proof.
  assert (Hrej : missing_data data ->
    add_measurement data db = (inl (HTTPException 400 "Missing data"), db)).
  { intros Hm. apply missing_data_check in Hm.
    unfold add_measurement. now rewrite Hm. }
  assert (Honly : forall detail db',
    add_measurement data db = (inl (HTTPException 400 detail), db') ->
    missing_data data).
  { intros detail db'. unfold add_measurement.
    destruct (_ || _) eqn:Hc; [intros _; now apply missing_data_check|].
    unfold sbind, query_room_by_name, query_measurement, utcfromtimestamp.
    destruct (find _ (rooms db)) as [room|]; simpl;
      (destruct (_ && _); cbn [sret sraise];
       [|intros H; discriminate]);
      (destruct (find _ _); cbn [sraise];
       [intros H; discriminate|]);
      (destruct (add_routers _ _ _ _) as [[e|pending] db1] eqn:Ha;
       [apply add_routers_raises in Ha; subst; intros H; discriminate|]);
      (destruct (commit None pending db1) as [[e|[]] db2] eqn:Hk;
       [apply commit_raises in Hk; destruct Hk; subst; intros H; discriminate
       |unfold sret; intros H; discriminate]). }
  split; [|split].
  - intros Hz. apply Hrej. unfold missing_data. auto.
  - split; [apply Hrej | apply Honly].
  - exact Honly.
Qed.

Lemma utcfromtimestamp_datetime (t : Z) (db : Db) :
  is_datetime t -> utcfromtimestamp t db = (inr t, db).
Proof.
  unfold is_datetime, utcfromtimestamp. intros [Hlo Hhi].
  apply Z.leb_le in Hlo, Hhi. now rewrite Hlo, Hhi.
Qed.





Lemma C9_zero_timestamp_is_missing_data_witness :
  add_measurement epoch_sample two_rooms
  = (inl (HTTPException 400 "Missing data"), two_rooms).
Proof.
  apply (proj1 (C9_zero_timestamp_is_missing_data epoch_sample two_rooms)).
  reflexivity.
Defined.

(** ** Properties of handler computations *)

Section Computations.
Context {A B : Type}.

Lemma trace_bind (m : M A) (f : A -> M B) :
  trace (bind m f)
  = trace m ++ match outcome m with
               | inl _ => []
               | inr a => trace (f a)
               end.
Proof.
  destruct m as [t [e|a]]; simpl.
  - now rewrite app_nil_r.
  - now destruct (f a).
Qed.

Lemma bind_returns (m : M A) (f : A -> M B) (tr : list call) (b : B) :
  bind m f = (tr, inr b) ->
  exists t1 a t2, m = (t1, inr a) /\ f a = (t2, inr b) /\ tr = t1 ++ t2.
Proof.
  destruct m as [t1 [e|a]]; simpl; [discriminate|].
  destruct (f a) as [t2 r] eqn:Hf. intros H. inversion H; subst.
  now exists t1, a, t2.
Qed.

Lemma invoke_returns (c : call) (r : exn + A) (tr : list call) (a : A) :
  invoke c r = (tr, inr a) -> tr = [c] /\ r = inr a.
Proof. unfold invoke. intros H. now inversion H. Qed.

Lemma lift_returns (r : exn + A) (tr : list call) (a : A) :
  lift r = (tr, inr a) -> tr = [] /\ r = inr a.
Proof. unfold lift. intros H. now inversion H. Qed.

Lemma ret_returns (x : A) (tr : list call) (a : A) :
  ret x = (tr, inr a) -> tr = [] /\ x = a.
Proof. unfold ret. intros H. now inversion H. Qed.
End Computations.

Lemma filter_all {A} (p : A -> bool) (l : list A) :
  Forall (fun x => p x = true) l -> filter p l = l.
Proof.
  induction 1 as [|x l Hx _ IH]; simpl; [reflexivity|].
  now rewrite Hx, IH.
Qed.

Lemma filter_none {A} (p : A -> bool) (l : list A) :
  Forall (fun x => p x = false) l -> filter p l = [].
Proof.
  induction 1 as [|x l Hx _ IH]; simpl; [reflexivity|].
  now rewrite Hx.
Qed.

(** Goals of the form [Forall P (trace m)], by following the structure of
    the computation [m]. *)
Ltac trace_step :=
  match goal with
  | |- Forall _ [] => constructor
  | |- Forall _ (_ :: _) => constructor; [reflexivity|]
  | |- Forall _ (_ ++ _) => apply Forall_app; split
  | |- Forall _ (trace (bind _ _)) => rewrite trace_bind
  | |- Forall _ (trace (invoke _ _)) => unfold invoke; simpl
  | |- Forall _ (trace (ret _)) => constructor
  | |- Forall _ (trace (raise _)) => constructor
  | |- Forall _ (trace (lift _)) => constructor
  | |- Forall _ (match outcome ?m with _ => _ end) => destruct (outcome m)
  | |- Forall _ (trace (if ?b then _ else _)) => destruct b
  | |- Forall _ (trace (match ?x with _ => _ end)) => destruct x
  | |- Forall _ (trace (let (_, _) := ?x in _)) => destruct x
  | |- Forall _ (trace _) => assumption
  end.

Ltac trace_tac := repeat trace_step.

Section PredictRoomFacts.
Context (U : Utils).

Lemma filter_rooms_trace data rec rooms :
  Forall (fun c => is_downstream_call c = false)
         (trace (filter_rooms U data rec rooms)).
Proof. unfold filter_rooms. trace_tac. Qed.

Lemma training_data_trace data db :
  Forall (fun c => is_downstream_call c = false)
         (trace (training_data U data db)).
Proof.
  unfold training_data. pose proof (filter_rooms_trace data) as Hf.
  trace_tac; apply Hf.
Qed.

Lemma downstream_of_classifier (c : call) :
  is_downstream_call c = false -> is_classifier_call c = false.
Proof. destruct c; simpl; congruence. Qed.

Lemma condition_trace data rec X macs :
  Forall (fun c => is_classifier_call c = false)
         (trace (condition U data rec X macs)).
Proof. unfold condition. trace_tac. Qed.

Lemma conditioned_data_trace data db :
  Forall (fun c => is_classifier_call c = false)
         (trace (conditioned_data U data db)).
Proof.
  unfold conditioned_data.
  pose proof (training_data_trace data db) as Ht.
  pose proof (condition_trace data) as Hc.
  rewrite trace_bind. apply Forall_app; split.
  - eapply Forall_impl; [|exact Ht]. apply downstream_of_classifier.
  - trace_tac; apply Hc.
Qed.
End PredictRoomFacts.

(** ** Properties of [predict_room] *)

Lemma zero_rows_or_columns_size {A} (X : ndarray A) :
  zero_rows_or_columns X <-> size X = 0%nat.
Proof.
  unfold zero_rows_or_columns, size. split.
  - intros [->|H]; [reflexivity|].
    induction H as [|row X Hrow _ IH]; [reflexivity|].
    simpl. now rewrite Hrow.
  - intros H. right. induction X as [|row X IH]; [constructor|].
    simpl in H. rewrite length_app in H.
    constructor.
    + destruct row; [reflexivity|discriminate].
    + apply IH. lia.
Qed.

(** C3, as amended.  A request without routers is rejected at line 129 with
    HTTP 400 "Missing data", before any function of [utils] is called; no
    prediction is returned. *)
Theorem C3_empty_routers_rejected (U : Utils) (data : PredictData.t) (db : Db) :
  PredictData.routers data = [] ->
  predict_room U data db = ([], inl (HTTPException 400 "Missing data")).
Proof.
  intros H. unfold predict_room, classified, conditioned_data, training_data.
  now rewrite H.
Qed.

Lemma C3_empty_routers_rejected_witness :
  predict_room spec_utils scenario_C two_rooms
  = ([], inl (HTTPException 400 "Missing data")).
Proof. apply (C3_empty_routers_rejected spec_utils scenario_C two_rooms). reflexivity. Defined.

(** C3, as stated, fails: for scenario C the handler signals neither the
    empty training data of line 185 nor the empty query of line 195, but
    the rejection of line 131. *)
Lemma C3_counterexample :
  PredictData.routers scenario_C = []
  /\ outcome (predict_room spec_utils scenario_C two_rooms)
     = inl (HTTPException 400 "Missing data")
  /\ outcome (predict_room spec_utils scenario_C two_rooms)
     <> inr (ErrorTuple "Training data is empty. Check the input data." 400)
  /\ outcome (predict_room spec_utils scenario_C two_rooms)
     <> inl (ValueError "Received data is empty. Check the input data.").
Proof. repeat split; try reflexivity; discriminate. Qed.

(** C2.  When the feature matrix that [prepare_data] returns at line 182 has
    zero rows or zero columns (or its label vector is empty), the handler
    stops at line 185 with the answer "Training data is empty" and status
    400: that is all it returns, and no imputation, query vector, threshold,
    scaling or classifier has been called. *)
Theorem C2_empty_training_data (U : Utils) (data : PredictData.t) (db : Db)
    (tr : list call) (received_data : Received U) (X : ndarray cell)
    (y : list Z) (mac_address_list : list string) :
  training_data U data db = (tr, inr (received_data, (X, y, mac_address_list))) ->
  zero_rows_or_columns X \/ y = [] ->
  predict_room U data db
  = (tr, inr (ErrorTuple "Training data is empty. Check the input data." 400))
  /\ Forall (fun c => is_downstream_call c = false)
            (trace (predict_room U data db)).
Proof.
  intros Ht Hz.
  assert (Hempty : (size X =? 0)%nat || (List.length y =? 0)%nat = true).
  { destruct Hz as [Hz| ->].
    - apply zero_rows_or_columns_size in Hz. now rewrite Hz.
    - apply orb_true_r. }
  assert (Hp : predict_room U data db
    = (tr, inr (ErrorTuple "Training data is empty. Check the input data." 400))).
  { unfold predict_room, classified, conditioned_data.
    rewrite Ht. cbn. rewrite Hempty. cbn. now rewrite !app_nil_r. }
  split; [exact Hp|].
  rewrite Hp. change tr with (trace (tr, @inr exn _ (received_data, (X, y, mac_address_list)))).
  rewrite <- Ht. apply training_data_trace.
Qed.

Lemma C2_empty_training_data_witness :
  predict_room spec_utils unheard_scan two_rooms
  = ([Call_process_received_data; Call_process_fingerprint_data;
      Call_remove_unreceived_bssids; Call_prepare_data],
     inr (ErrorTuple "Training data is empty. Check the input data." 400)).
Proof.
  refine (proj1 (C2_empty_training_data spec_utils unheard_scan two_rooms
                   _ _ [[]; []] _ _ _ _)).
  - vm_compute. reflexivity.
  - left. right. repeat constructor.
Defined.

(** C4.  When the query vector that comes out of the threshold and the
    scaling (lines 191-192) has no element, the handler raises the
    [ValueError] "Received data is empty" of line 195; no classifier has
    been called and nothing is returned. *)
Theorem C4_empty_query_data (U : Utils) (data : PredictData.t) (db : Db)
    (tr : list call) (X X_new : ndarray (Scaled U)) (y : list Z) :
  conditioned_data U data db = (tr, inr (inr (X, X_new, y))) ->
  size X_new = 0%nat ->
  predict_room U data db
  = (tr, inl (ValueError "Received data is empty. Check the input data."))
  /\ Forall (fun c => is_classifier_call c = false)
            (trace (predict_room U data db)).
Proof.
  intros Hc Hz.
  assert (Hp : predict_room U data db
    = (tr, inl (ValueError "Received data is empty. Check the input data."))).
  { unfold predict_room, classified. rewrite Hc. cbn. rewrite Hz. cbn.
    now rewrite !app_nil_r. }
  split; [exact Hp|].
  rewrite Hp.
  change tr with (trace (tr, @inr exn (response + _) (inr (X, X_new, y)))).
  rewrite <- Hc. apply conditioned_data_trace.
Qed.

Lemma C4_empty_query_data_witness :
  predict_room losing_utils scenario_A two_rooms
  = ([Call_process_received_data; Call_process_fingerprint_data;
      Call_prepare_data; Call_handle_missing_values;
      Call_prepare_received_data; Call_handle_router_rssi_threshold;
      Call_value_scaling (Some (-80))],
     inl (ValueError "Received data is empty. Check the input data.")).
Proof.
  refine (proj1 (C4_empty_query_data losing_utils scenario_A two_rooms
                   _ _ [[]] _ _ _)).
  - vm_compute. reflexivity.
  - reflexivity.
Defined.

Ltac break_match :=
  match goal with
  | |- context [match ?x with _ => _ end] =>
      lazymatch x with
      | context [match _ with _ => _ end] => fail
      | _ => destruct x eqn:?
      end
  end.

Section FilterFacts.
Context (U : Utils).

Lemma condition_no_filter data rec X macs :
  Forall (fun c => is_filter_call c = false)
         (trace (condition U data rec X macs)).
Proof. unfold condition. trace_tac. Qed.

Lemma classify_no_filter data X X_new y :
  Forall (fun c => is_filter_call c = false)
         (trace (classify U data X X_new y)).
Proof. unfold classify. trace_tac. Qed.

Lemma training_data_filters data db :
  exists n, filter is_filter_call (trace (training_data U data db))
            = firstn n (enabled_filters data).
Proof.
  unfold training_data, filter_rooms, enabled_filters, unseen_enabled,
    network_name_enabled, bind, invoke, ret, raise, lift, trace.
  repeat (break_match; simpl in *; try discriminate);
    try solve [ exists 0%nat; reflexivity | exists 1%nat; reflexivity
          | exists 2%nat; reflexivity | exists 3%nat; reflexivity ].
Qed.
End FilterFacts.

Section FilterChain.
Context (U : Utils).

Lemma filter_rooms_returns data rec rooms tr out :
  filter_rooms U data rec rooms = (tr, inr out) ->
  exists r1 r2 t,
    stage (unseen_enabled data)
          (fun r => remove_unreceived_bssids U r rec) rooms r1
    /\ stage (network_name_enabled data) (remove_non_eduroam_bssids U) r1 r2
    /\ PredictData.router_presence_threshold data = Some t
    /\ stage (0 <? t)%float (fun r => remove_rare_routers U r t) r2 out
    /\ tr = enabled_filters data.
Proof.
  unfold filter_rooms, enabled_filters, unseen_enabled, network_name_enabled,
    stage, bind, invoke, ret, raise.
  repeat (break_match; simpl in *; try discriminate);
    intros H; inversion H; subst; clear H;
    do 3 eexists; repeat split; eauto;
    match goal with
    | H : (0 <? _)%float = _ |- _ => now rewrite H
    end.
Qed.

Lemma training_data_returns data db tr received_data Xy :
  training_data U data db = (tr, inr (received_data, Xy)) ->
  exists result rooms out,
    process_received_data U (PredictData.routers data) = inr received_data
    /\ collect_result db (PredictData.ignore_measurements data)
                      (measurements db) = inr result
    /\ process_fingerprint_data U result = inr rooms
    /\ filter_rooms U data received_data rooms = (enabled_filters data, inr out)
    /\ prepare_data U out = inr Xy
    /\ tr = [Call_process_received_data; Call_process_fingerprint_data]
            ++ enabled_filters data ++ [Call_prepare_data].
Proof.
  unfold training_data. destruct (not_list _); [discriminate|].
  intros H.
  apply bind_returns in H as (t1 & rec & t1' & H1 & H & ->).
  apply invoke_returns in H1 as [-> H1].
  apply bind_returns in H as (t2 & result & t2' & H2 & H & ->).
  apply lift_returns in H2 as [-> H2].
  apply bind_returns in H as (t3 & rooms & t3' & H3 & H & ->).
  apply invoke_returns in H3 as [-> H3].
  apply bind_returns in H as (t4 & out & t4' & H4 & H & ->).
  apply bind_returns in H as (t5 & Xy' & t5' & H5 & H & ->).
  apply invoke_returns in H5 as [-> H5].
  apply ret_returns in H as [-> H]. inversion H; subst.
  destruct (filter_rooms_returns _ _ _ _ _ H4)
    as (r1 & r2 & t & _ & _ & _ & _ & ->).
  exists result, rooms, out. now rewrite app_nil_r.
Qed.

Lemma predict_room_after_training data db :
  exists rest,
    trace (predict_room U data db) = trace (training_data U data db) ++ rest
    /\ Forall (fun c => is_filter_call c = false) rest.
Proof.
  unfold predict_room, classified, conditioned_data.
  pose proof (condition_no_filter U data) as Hc.
  pose proof (classify_no_filter U data) as Hk.
  rewrite !trace_bind, <- !app_assoc. eexists; split; [reflexivity|].
  trace_tac; first [apply Hc | apply Hk].
Qed.
End FilterChain.

Lemma in_firstn {A} (x : A) (n : nat) (l : list A) :
  In x (firstn n l) -> In x l.
Proof.
  revert l. induction n as [|n IH]; intros [|y l]; simpl; try tauto.
  intros [H|H]; auto.
Qed.

(** C5.  The calls of the three filters appear in the handler's trace in the
    order unseen, network name, rarity, each only when its option enables
    it; when the feature matrix is built, the fingerprint records given to
    [prepare_data] are those of the aggregator passed through the enabled
    stages in that order, the rarity stage working on the output of the two
    narrower ones; and with a threshold of 0 [remove_rare_routers] is not
    called and the records leave the chain as the first two stages left
    them. *)
Theorem C5_filter_order (U : Utils) (data : PredictData.t) (db : Db) :
  (exists n,
     filter is_filter_call (trace (predict_room U data db))
     = firstn n (enabled_filters data))
  /\ (forall tr received_data Xy,
        training_data U data db = (tr, inr (received_data, Xy)) ->
        exists result rooms r1 r2 r3 t,
          collect_result db (PredictData.ignore_measurements data)
                         (measurements db) = inr result
          /\ process_fingerprint_data U result = inr rooms
          /\ stage (unseen_enabled data)
                   (fun r => remove_unreceived_bssids U r received_data)
                   rooms r1
          /\ stage (network_name_enabled data)
                   (remove_non_eduroam_bssids U) r1 r2
          /\ PredictData.router_presence_threshold data = Some t
          /\ stage (0 <? t)%float (fun r => remove_rare_routers U r t) r2 r3
          /\ prepare_data U r3 = inr Xy
          /\ tr = [Call_process_received_data; Call_process_fingerprint_data]
                  ++ enabled_filters data ++ [Call_prepare_data])
  /\ (PredictData.router_presence_threshold data = Some 0%float ->
      (forall t, ~ In (Call_remove_rare_routers t)
                      (trace (predict_room U data db)))
      /\ (forall received_data rooms tr out,
            filter_rooms U data received_data rooms = (tr, inr out) ->
            exists r1,
              stage (unseen_enabled data)
                    (fun r => remove_unreceived_bssids U r received_data)
                    rooms r1
              /\ stage (network_name_enabled data)
                       (remove_non_eduroam_bssids U) r1 out)).
Proof.
  assert (Horder : exists n,
     filter is_filter_call (trace (predict_room U data db))
     = firstn n (enabled_filters data)).
  { destruct (predict_room_after_training U data db) as (rest & -> & Hrest).
    destruct (training_data_filters U data db) as [n Hn].
    exists n. rewrite filter_app, Hn, (filter_none _ _ Hrest).
    apply app_nil_r. }
  split; [exact Horder|split].
  - intros tr received_data Xy H.
    apply training_data_returns in H
      as (result & rooms & out & _ & Hres & Hfp & Hf & Hprep & ->).
    apply filter_rooms_returns in Hf
      as (r1 & r2 & t & H1 & H2 & Ht & H3 & _).
    now exists result, rooms, r1, r2, out, t.
  - intros Hzero. split.
    + intros t Hin. destruct Horder as [n Hn].
      assert (Hf : In (Call_remove_rare_routers t)
                      (filter is_filter_call (trace (predict_room U data db)))).
      { apply filter_In. now split. }
      rewrite Hn in Hf. apply in_firstn in Hf.
      unfold enabled_filters in Hf. rewrite Hzero in Hf.
      change (0 <? 0)%float with false in Hf. rewrite app_nil_r in Hf.
      apply in_app_or in Hf as [Hf|Hf].
      * destruct (unseen_enabled data); simpl in Hf;
          [destruct Hf as [Hf|[]]; discriminate|contradiction].
      * destruct (network_name_enabled data); simpl in Hf;
          [destruct Hf as [Hf|[]]; discriminate|contradiction].
    + intros received_data rooms tr out Hf.
      apply filter_rooms_returns in Hf
        as (r1 & r2 & t & H1 & H2 & Ht & H3 & _).
      rewrite Hzero in Ht. inversion Ht; subst t.
      change (0 <? 0)%float with false in H3. unfold stage in H3 at 1.
      subst out. now exists r1.
Qed.

Lemma C5_filter_order_witness :
  exists result rooms r1 r2 r3 t,
    collect_result two_rooms (PredictData.ignore_measurements all_filters)
                   (measurements two_rooms) = inr result
    /\ process_fingerprint_data spec_utils result = inr rooms
    /\ stage (unseen_enabled all_filters)
             (fun r => remove_unreceived_bssids spec_utils r live_scan)
             rooms r1
    /\ stage (network_name_enabled all_filters)
             (remove_non_eduroam_bssids spec_utils) r1 r2
    /\ PredictData.router_presence_threshold all_filters = Some t
    /\ stage (0 <? t)%float
             (fun r => remove_rare_routers spec_utils r t) r2 r3
    /\ prepare_data spec_utils r3
       = inr ([[Some (-40); Some (-60)]; [Some (-80); Some (-45)]],
              [1; 2], ["AA"; "BB"])
    /\ [Call_process_received_data; Call_process_fingerprint_data;
        Call_remove_unreceived_bssids; Call_remove_non_eduroam_bssids;
        Call_remove_rare_routers 0.5; Call_prepare_data]
       = [Call_process_received_data; Call_process_fingerprint_data]
         ++ enabled_filters all_filters ++ [Call_prepare_data].
Proof.
  apply (proj1 (proj2 (C5_filter_order spec_utils all_filters two_rooms))).
  vm_compute. reflexivity.
Defined.

(** ** The scaling parameter *)

Lemma fold_min_least (cs : list cell) :
  forall c,
    Forall (fun x => is_nan x = false) (c :: cs) ->
    exists v,
      fold_left (fun acc x => if cell_ltb x acc then x else acc) cs c = Some v
      /\ In (Some v) (c :: cs)
      /\ (forall w, In (Some w) (c :: cs) -> v <= w).
Proof.
  induction cs as [|x cs IH]; intros c Hn.
  - destruct c as [v|]; [|inversion Hn; discriminate].
    exists v. simpl. repeat split; auto.
    intros w [H|[]]. inversion H. lia.
  - inversion Hn as [|? ? Hc Hrest]; subst.
    inversion Hrest as [|? ? Hx Hcs]; subst.
    destruct c as [vc|]; [|discriminate]. destruct x as [vx|]; [|discriminate].
    cbn [fold_left]. change (cell_ltb (Some vx) (Some vc)) with (vx <? vc).
    destruct (vx <? vc) eqn:Hlt.
    + apply Z.ltb_lt in Hlt.
      destruct (IH (Some vx)) as (v & Hv & Hin & Hle); [now constructor|].
      exists v. split; [exact Hv|split].
      * right. exact Hin.
      * intros w [H|H]; [|now apply Hle].
        inversion H; subst. specialize (Hle vx (or_introl eq_refl)). lia.
    + apply Z.ltb_ge in Hlt.
      destruct (IH (Some vc)) as (v & Hv & Hin & Hle); [now constructor|].
      exists v. split; [exact Hv|split].
      * destruct Hin as [Hin|Hin]; [now left|right; now right].
      * intros w [H|[H|H]].
        -- apply Hle. now left.
        -- inversion H; subst. specialize (Hle vc (or_introl eq_refl)). lia.
        -- apply Hle. now right.
Qed.

Lemma np_min_least (X : ndarray cell) (a : cell) :
  np_min X = inr a ->
  Forall (fun x => is_nan x = false) (List.concat X) ->
  exists v, a = Some v
            /\ In (Some v) (List.concat X)
            /\ (forall w, In (Some w) (List.concat X) -> v <= w).
Proof.
  unfold np_min. destruct (List.concat X) as [|c cs]; [discriminate|].
  intros H Hn.
  assert (Hex : existsb is_nan (c :: cs) = false).
  { apply not_true_is_false. intros He.
    apply existsb_exists in He as (x & Hin & Hx).
    rewrite Forall_forall in Hn. rewrite (Hn x Hin) in Hx. discriminate. }
  rewrite Hex in H. inversion H; subst.
  destruct (fold_min_least cs c Hn) as (v & Hv & Hin & Hle).
  exists v. auto.
Qed.


Section Conditioning.
Context (U : Utils).

Lemma condition_returns data received_data X0 macs tr X X_new :
  condition U data received_data X0 macs = (tr, inr (X, X_new)) ->
  exists X_imputed X_query a b X_t X_query_t,
    handle_missing_values U X0 macs received_data
      (PredictData.handle_missing_values_strategy data) = inr X_imputed
    /\ prepare_received_data U received_data macs = inr X_query
    /\ np_min X_imputed = inr a
    /\ np_min X_query = inr b
    /\ handle_router_rssi_threshold U X_imputed X_query
         (PredictData.router_rssi_threshold data) = inr (X_t, X_query_t)
    /\ value_scaling U X_t X_query_t (py_min a b)
         (PredictData.value_scaling_strategy data) = inr (X, X_new)
    /\ tr = [Call_handle_missing_values; Call_prepare_received_data;
             Call_handle_router_rssi_threshold;
             Call_value_scaling (py_min a b)].
Proof.
  unfold condition. intros H.
  apply bind_returns in H as (t1 & X_imputed & t1' & H1 & H & ->).
  apply invoke_returns in H1 as [-> H1].
  apply bind_returns in H as (t2 & X_query & t2' & H2 & H & ->).
  apply invoke_returns in H2 as [-> H2].
  apply bind_returns in H as (t3 & m & t3' & H3 & H & ->).
  apply lift_returns in H3 as [-> H3].
  apply bind_returns in H as (t4 & [X_t X_query_t] & t4' & H4 & H & ->).
  apply invoke_returns in H4 as [-> H4].
  apply invoke_returns in H as [-> H].
  unfold min_rssi in H3.
  destruct (np_min X_imputed) as [e|a] eqn:Ha; [discriminate|].
  destruct (np_min X_query) as [e|b] eqn:Hb; [discriminate|].
  inversion H3; subst m.
  exists X_imputed, X_query, a, b, X_t, X_query_t. repeat split; auto.
Qed.

Lemma conditioned_data_returns data db tr X X_new y :
  conditioned_data U data db = (tr, inr (inr (X, X_new, y))) ->
  exists tr0 tr1 received_data X0 macs,
    training_data U data db = (tr0, inr (received_data, (X0, y, macs)))
    /\ size X0 <> 0%nat
    /\ condition U data received_data X0 macs = (tr1, inr (X, X_new))
    /\ tr = tr0 ++ tr1.
Proof.
  unfold conditioned_data. intros H.
  apply bind_returns in H
    as (tr0 & [received_data [[X0 y0] macs]] & t & Ht & H & ->).
  destruct (size X0 =? 0)%nat eqn:Hs; simpl in H.
  - apply ret_returns in H as [_ H]. discriminate.
  - destruct (List.length y0 =? 0)%nat.
    + apply ret_returns in H as [_ H]. discriminate.
    + apply bind_returns in H as (tr1 & [X' X_new'] & t' & Hc & H & ->).
      apply ret_returns in H as [-> H]. inversion H; subst.
      exists tr0, tr1, received_data, X0, macs.
      rewrite app_nil_r. repeat split; auto.
      now apply Nat.eqb_neq.
Qed.
End Conditioning.

Lemma np_min_nan (X : ndarray cell) (a : cell) :
  np_min X = inr a ->
  Exists (fun c => is_nan c = true) (List.concat X) ->
  a = None.
Proof.
  unfold np_min. destruct (List.concat X) as [|c cs]; [discriminate|].
  intros H Hex. apply Exists_exists in Hex as (x & Hin & Hx).
  assert (He : existsb is_nan (c :: cs) = true).
  { apply existsb_exists. now exists x. }
  rewrite He in H. now inversion H.
Qed.




(** ** The dispatch on [algorithm] *)

Lemma py_eq_true (v : option string) (name : string) :
  py_eq v name = true <-> v = Some name.
Proof.
  destruct v as [a|]; simpl; [|split; discriminate].
  rewrite String.eqb_eq. split; congruence.
Qed.

Section Dispatch.
Context (U : Utils).

Lemma classify_unrecognized data X X_new y :
  recognized (PredictData.algorithm data) = false ->
  classify U data X X_new y = ([], inr (None, PyInt (-1))).
Proof.
  unfold classify, recognized, py_eq.
  destruct (PredictData.algorithm data) as [a|]; [|reflexivity].
  simpl. rewrite !orb_false_r, !orb_false_iff.
  intros (-> & -> & -> & -> & ->). reflexivity.
Qed.

Lemma classify_trace data X X_new y :
  Forall (fun c => is_classifier_call c = true)
         (trace (classify U data X X_new y)).
Proof. unfold classify. trace_tac. Qed.

Lemma predict_room_trace data db :
  trace (predict_room U data db)
  = trace (conditioned_data U data db)
    ++ match outcome (conditioned_data U data db) with
       | inr (inr (X, X_new, y)) =>
           if (size X_new =? 0)%nat then []
           else trace (classify U data X X_new y)
       | _ => []
       end.
Proof.
  unfold predict_room, classified.
  destruct (conditioned_data U data db) as [t [e|[early|[[X X_new] y]]]];
    simpl; try now rewrite ?app_nil_r.
  destruct (size X_new =? 0)%nat; simpl; [now rewrite ?app_nil_r|].
  destruct (classify U data X X_new y) as [t1 [e|[[[p d]|] ov]]]; simpl;
    now rewrite ?app_nil_r.
Qed.

Lemma conditioned_data_algorithm data a db :
  conditioned_data U (with_algorithm data a) db = conditioned_data U data db.
Proof. reflexivity. Qed.

Lemma predict_room_returns data db tr room_name distance optional_value :
  predict_room U data db
  = (tr, inr (Prediction room_name distance optional_value)) ->
  exists tr0 tr1 X X_new y predicted_room,
    conditioned_data U data db = (tr0, inr (inr (X, X_new, y)))
    /\ classify U data X X_new y
       = (tr1, inr (Some (predicted_room, distance), optional_value))
    /\ room_name = handle_get_room_name_by_id predicted_room db
    /\ tr = tr0 ++ tr1.
Proof.
  unfold predict_room, classified. intros H.
  apply bind_returns in H as (t & r & t' & Hk & H & ->).
  apply bind_returns in Hk as (tr0 & c & t1 & Hc & Hk & ->).
  destruct c as [early|[[X X_new] y]].
  - apply ret_returns in Hk as [-> <-]. apply ret_returns in H as [_ H].
    subst early. exfalso. revert Hc. unfold conditioned_data. intros Hcd.
    apply bind_returns in Hcd
      as (t2 & [rec [[X0 y0] macs]] & t3 & _ & Hcd & _).
    destruct (_ || _).
    + apply ret_returns in Hcd as [_ Hcd]. discriminate.
    + apply bind_returns in Hcd as (t4 & [X1 X2] & t5 & _ & Hcd & _).
      apply ret_returns in Hcd as [_ Hcd]. discriminate.
  - destruct (size X_new =? 0)%nat; [discriminate|].
    apply bind_returns in Hk as (tr1 & k & t2 & Hcl & Hk & ->).
    apply ret_returns in Hk as [-> <-].
    destruct k as [[[p d]|] ov]; [|discriminate].
    apply ret_returns in H as [-> H]. inversion H; subst.
    exists tr0, tr1, X, X_new, y, p. rewrite !app_nil_r. auto.
Qed.
End Dispatch.

Section DispatchResults.
Context (U : Utils).

Lemma classify_returns data X X_new y tr1 predicted_room distance optional_value :
  classify U data X X_new y
  = (tr1, inr (Some (predicted_room, distance), optional_value)) ->
  exists a,
    PredictData.algorithm data = Some a
    /\ ((exists metric,
           (a = "knn_sorensen" /\ metric = "sorensen"
            \/ a = "knn_euclidean" /\ metric = "euclidean")
           /\ knn U X X_new y (PredictData.k_value data) metric
                  (PredictData.weights data) = inr (predicted_room, distance)
           /\ optional_value = PyInt (-1)
           /\ tr1 = [Call_knn metric])
        \/ (a = "random_forest"
            /\ random_forest U X X_new y (PredictData.n_estimators data)
                 (PredictData.max_depth data) = inr (predicted_room, distance)
            /\ optional_value = PyInt (-1)
            /\ tr1 = [Call_random_forest])
        \/ (exists kernel,
              (a = "svm_linear" /\ kernel = "linear"
               \/ a = "svm_rbf" /\ kernel = "rbf")
              /\ svm U X X_new y (PredictData.c_value data) kernel
                     (PredictData.gamma_value data)
                 = inr (predicted_room, distance, optional_value)
              /\ tr1 = [Call_svm kernel])).
Proof.
  unfold classify.
  destruct (py_eq _ "knn_sorensen") eqn:E1;
    [|destruct (py_eq _ "knn_euclidean") eqn:E2;
      [|destruct (py_eq _ "random_forest") eqn:E3;
        [|destruct (py_eq _ "svm_linear") eqn:E4;
          [|destruct (py_eq _ "svm_rbf") eqn:E5]]]];
    intros H;
    try (apply bind_returns in H as (t & r & t' & Hi & H & ->);
         apply invoke_returns in Hi as [-> Hi]).
  - destruct r as [p d]. apply ret_returns in H as [-> H]. inversion H; subst.
    apply py_eq_true in E1. exists "knn_sorensen". split; [exact E1|].
    left. exists "sorensen". auto.
  - destruct r as [p d]. apply ret_returns in H as [-> H]. inversion H; subst.
    apply py_eq_true in E2. exists "knn_euclidean". split; [exact E2|].
    left. exists "euclidean". auto.
  - destruct r as [p d]. apply ret_returns in H as [-> H]. inversion H; subst.
    apply py_eq_true in E3. exists "random_forest". split; [exact E3|].
    right. left. auto.
  - destruct r as [[p d] ov]. apply ret_returns in H as [-> H].
    inversion H; subst.
    apply py_eq_true in E4. exists "svm_linear". split; [exact E4|].
    right. right. exists "linear". auto.
  - destruct r as [[p d] ov]. apply ret_returns in H as [-> H].
    inversion H; subst.
    apply py_eq_true in E5. exists "svm_rbf". split; [exact E5|].
    right. right. exists "rbf". auto.
  - apply ret_returns in H as [_ H]. discriminate.
Qed.
End DispatchResults.

Section DispatchForward.
Context (U : Utils).

Lemma predict_room_classifies data db tr0 X X_new y tr1 predicted_room
      distance optional_value :
  conditioned_data U data db = (tr0, inr (inr (X, X_new, y))) ->
  size X_new <> 0%nat ->
  classify U data X X_new y
  = (tr1, inr (Some (predicted_room, distance), optional_value)) ->
  predict_room U data db
  = (tr0 ++ tr1,
     inr (Prediction (handle_get_room_name_by_id predicted_room db)
                     distance optional_value)).
Proof.
  intros Hc Hs Hk. apply Nat.eqb_neq in Hs.
  unfold predict_room, classified. rewrite Hc. cbn. rewrite Hs, Hk. cbn.
  now rewrite !app_nil_r.
Qed.

Lemma classify_knn data X X_new y a metric predicted_room distance :
  PredictData.algorithm data = Some a ->
  a = "knn_sorensen" /\ metric = "sorensen"
  \/ a = "knn_euclidean" /\ metric = "euclidean" ->
  knn U X X_new y (PredictData.k_value data) metric (PredictData.weights data)
  = inr (predicted_room, distance) ->
  classify U data X X_new y
  = ([Call_knn metric], inr (Some (predicted_room, distance), PyInt (-1))).
Proof.
  intros Ha [[-> ->]|[-> ->]] Hk; unfold classify; rewrite Ha; cbn;
    rewrite Hk; reflexivity.
Qed.

Lemma classify_random_forest data X X_new y predicted_room distance :
  PredictData.algorithm data = Some "random_forest" ->
  random_forest U X X_new y (PredictData.n_estimators data)
                (PredictData.max_depth data) = inr (predicted_room, distance) ->
  classify U data X X_new y
  = ([Call_random_forest], inr (Some (predicted_room, distance), PyInt (-1))).
Proof.
  intros Ha Hk. unfold classify. rewrite Ha. cbn. rewrite Hk. reflexivity.
Qed.

Lemma classify_svm data X X_new y a kernel predicted_room distance margin :
  PredictData.algorithm data = Some a ->
  a = "svm_linear" /\ kernel = "linear" \/ a = "svm_rbf" /\ kernel = "rbf" ->
  svm U X X_new y (PredictData.c_value data) kernel
      (PredictData.gamma_value data) = inr (predicted_room, distance, margin) ->
  classify U data X X_new y
  = ([Call_svm kernel], inr (Some (predicted_room, distance), margin)).
Proof.
  intros Ha [[-> ->]|[-> ->]] Hk; unfold classify; rewrite Ha; cbn;
    rewrite Hk; reflexivity.
Qed.
End DispatchForward.

(** C7.  A request that ends with a prediction names one of the five
    algorithms.  For [knn_sorensen], [knn_euclidean] and [random_forest] the
    [optional_value] of the answer is -1, the value assigned at line 201;
    for [svm_linear] and [svm_rbf] it is the third component of what [svm]
    returned for the conditioned arrays, next to the distance of the
    answer.  And the other way round, once the conditioned arrays are there
    and the query vector is not empty: whatever room and distance [knn] or
    [random_forest] returns under one of the first three names, the handler
    answers with them and with the [optional_value] -1; whatever room,
    distance and margin [svm] returns under one of the two svm names, the
    handler answers with them, the margin as [optional_value]. *)
Theorem C7_optional_value (U : Utils) (data : PredictData.t) (db : Db) :
  (forall (tr : list call) (room_name : string) (distance : float)
          (optional_value : pynum),
     predict_room U data db
     = (tr, inr (Prediction room_name distance optional_value)) ->
     exists a,
       PredictData.algorithm data = Some a
       /\ (((a = "knn_sorensen" \/ a = "knn_euclidean" \/ a = "random_forest")
            /\ optional_value = PyInt (-1))
           \/ (exists kernel tr0 X X_new y predicted_room,
                 (a = "svm_linear" /\ kernel = "linear"
                  \/ a = "svm_rbf" /\ kernel = "rbf")
                 /\ conditioned_data U data db
                    = (tr0, inr (inr (X, X_new, y)))
                 /\ svm U X X_new y (PredictData.c_value data) kernel
                        (PredictData.gamma_value data)
                    = inr (predicted_room, distance, optional_value)
                 /\ tr = tr0 ++ [Call_svm kernel])))
  /\ (forall (tr0 : list call) (X X_new : ndarray (Scaled U)) (y : list Z),
        conditioned_data U data db = (tr0, inr (inr (X, X_new, y))) ->
        size X_new <> 0%nat ->
        (forall a metric predicted_room distance,
           PredictData.algorithm data = Some a ->
           a = "knn_sorensen" /\ metric = "sorensen"
           \/ a = "knn_euclidean" /\ metric = "euclidean" ->
           knn U X X_new y (PredictData.k_value data) metric
               (PredictData.weights data) = inr (predicted_room, distance) ->
           predict_room U data db
           = (tr0 ++ [Call_knn metric],
              inr (Prediction (handle_get_room_name_by_id predicted_room db)
                              distance (PyInt (-1)))))
        /\ (forall predicted_room distance,
              PredictData.algorithm data = Some "random_forest" ->
              random_forest U X X_new y (PredictData.n_estimators data)
                            (PredictData.max_depth data)
              = inr (predicted_room, distance) ->
              predict_room U data db
              = (tr0 ++ [Call_random_forest],
                 inr (Prediction
                        (handle_get_room_name_by_id predicted_room db)
                        distance (PyInt (-1)))))
        /\ (forall a kernel predicted_room distance margin,
              PredictData.algorithm data = Some a ->
              a = "svm_linear" /\ kernel = "linear"
              \/ a = "svm_rbf" /\ kernel = "rbf" ->
              svm U X X_new y (PredictData.c_value data) kernel
                  (PredictData.gamma_value data)
              = inr (predicted_room, distance, margin) ->
              predict_room U data db
              = (tr0 ++ [Call_svm kernel],
                 inr (Prediction
                        (handle_get_room_name_by_id predicted_room db)
                        distance margin)))).
Proof.
  split.
  - intros tr room_name distance optional_value H.
    apply predict_room_returns in H
      as (tr0 & tr1 & X & X_new & y & p & Hc & Hk & _ & ->).
    apply classify_returns in Hk as (a & Ha & Hcases).
    exists a. split; [exact Ha|].
    destruct Hcases as [(metric & Hm & _ & Hov & _)
                       |[(Hrf & _ & Hov & _)
                        |(kernel & Hk & Hsvm & ->)]].
    + left. split; [|exact Hov]. destruct Hm as [[-> _]|[-> _]]; auto.
    + left. split; [|exact Hov]. auto.
    + right. exists kernel, tr0, X, X_new, y, p. auto.
  - intros tr0 X X_new y Hc Hs. split; [|split].
    + intros a metric p d Ha Hm Hk.
      apply (predict_room_classifies U data db tr0 X X_new y); auto.
      now apply (classify_knn U data X X_new y a).
    + intros p d Ha Hk.
      apply (predict_room_classifies U data db tr0 X X_new y); auto.
      now apply classify_random_forest.
    + intros a kernel p d margin Ha Hm Hk.
      apply (predict_room_classifies U data db tr0 X X_new y); auto.
      now apply (classify_svm U data X X_new y a).
Qed.

(** With the stand-in margin classifier, the margin 1.5 that [svm] returns
    is the [optional_value] of the answer; with the nearest-neighbour
    strategy it is -1. *)
Lemma C7_optional_value_witness :
  predict_room margin_utils svm_request two_rooms
  = ([Call_process_received_data; Call_process_fingerprint_data;
      Call_prepare_data; Call_handle_missing_values;
      Call_prepare_received_data; Call_handle_router_rssi_threshold;
      Call_value_scaling (Some (-80))] ++ [Call_svm "rbf"],
     inr (Prediction "101" 0.25%float (PyFloat 1.5%float)))
  /\ predict_room spec_utils scenario_A two_rooms
     = ([Call_process_received_data; Call_process_fingerprint_data;
         Call_prepare_data; Call_handle_missing_values;
         Call_prepare_received_data; Call_handle_router_rssi_threshold;
         Call_value_scaling (Some (-80))] ++ [Call_knn "euclidean"],
        inr (Prediction "101" (PrimFloat.sqrt (SpecUtils.float_of_Z 8))
                        (PyInt (-1))))
  /\ exists a,
       PredictData.algorithm svm_request = Some a
       /\ (((a = "knn_sorensen" \/ a = "knn_euclidean" \/ a = "random_forest")
            /\ PyFloat 1.5%float = PyInt (-1))
           \/ (exists kernel tr0 X X_new y predicted_room,
                 (a = "svm_linear" /\ kernel = "linear"
                  \/ a = "svm_rbf" /\ kernel = "rbf")
                 /\ conditioned_data margin_utils svm_request two_rooms
                    = (tr0, inr (inr (X, X_new, y)))
                 /\ svm margin_utils X X_new y
                        (PredictData.c_value svm_request) kernel
                        (PredictData.gamma_value svm_request)
                    = inr (predicted_room, 0.25%float, PyFloat 1.5%float)
                 /\ [Call_process_received_data;
                     Call_process_fingerprint_data;
                     Call_prepare_data; Call_handle_missing_values;
                     Call_prepare_received_data;
                     Call_handle_router_rssi_threshold;
                     Call_value_scaling (Some (-80)); Call_svm "rbf"]
                    = tr0 ++ [Call_svm kernel])).
Proof.
  split; [|split].
  - refine (proj2 (proj2 (proj2 (C7_optional_value margin_utils svm_request
                                   two_rooms)
                            _ [[Some (-40); Some (-60)];
                               [Some (-80); Some (-45)]]
                            [[Some (-42); Some (-58)]] [1; 2] _ _))
              "svm_rbf" "rbf" 1 0.25%float (PyFloat 1.5%float) _ _ _).
    + vm_compute. reflexivity.
    + vm_compute. discriminate.
    + reflexivity.
    + right. split; reflexivity.
    + reflexivity.
  - refine (proj1 (proj2 (C7_optional_value spec_utils scenario_A two_rooms)
                     _ [[Some (-40); Some (-60)]; [Some (-80); Some (-45)]]
                     [[Some (-42); Some (-58)]] [1; 2] _ _)
              "knn_euclidean" "euclidean" 1
              (PrimFloat.sqrt (SpecUtils.float_of_Z 8)) _ _ _).
    + vm_compute. reflexivity.
    + vm_compute. discriminate.
    + reflexivity.
    + right. split; reflexivity.
    + vm_compute. reflexivity.
  - apply (proj1 (C7_optional_value margin_utils svm_request two_rooms)
             _ "101").
    vm_compute. reflexivity.
Defined.

(** C8.  A predicted room identifier without a row in [rooms] is given the
    name "Unknown", and the handler returns its prediction all the same;
    when rows with that identifier exist, the name is that of the first of
    them. *)
Theorem C8_unknown_room (U : Utils) (data : PredictData.t) (db : Db)
    (tr : list call) (predicted_room : Z) (distance : float)
    (optional_value : pynum) :
  classified U data db
  = (tr, inr (inr (Some (predicted_room, distance), optional_value))) ->
  predict_room U data db
  = (tr, inr (Prediction (handle_get_room_name_by_id predicted_room db)
                         distance optional_value))
  /\ ((forall room, In room (rooms db) -> Room.room_id room <> predicted_room)
      -> handle_get_room_name_by_id predicted_room db = "Unknown")
  /\ ((exists room, In room (rooms db) /\ Room.room_id room = predicted_room)
      -> exists room,
           In room (rooms db)
           /\ Room.room_id room = predicted_room
           /\ handle_get_room_name_by_id predicted_room db
              = Room.room_name room).
Proof.
  intros H. split; [|split].
  - unfold predict_room. rewrite H. cbn. now rewrite app_nil_r.
  - intros Hnone. unfold handle_get_room_name_by_id, query_room_by_id.
    destruct (find _ (rooms db)) as [room|] eqn:Hf; [|reflexivity].
    apply find_some in Hf as [Hin Hid]. apply Z.eqb_eq in Hid.
    now destruct (Hnone room Hin).
  - intros (room & Hin & Hid).
    unfold handle_get_room_name_by_id, query_room_by_id.
    destruct (find _ (rooms db)) as [first|] eqn:Hf.
    + apply find_some in Hf as [Hin' Hid']. apply Z.eqb_eq in Hid'.
      now exists first.
    + apply (find_none _ _ Hf) in Hin. apply Z.eqb_neq in Hin. contradiction.
Qed.

Lemma C8_unknown_room_witness :
  predict_room spec_utils scenario_A rooms_deleted
  = ([Call_process_received_data; Call_process_fingerprint_data;
      Call_prepare_data; Call_handle_missing_values;
      Call_prepare_received_data; Call_handle_router_rssi_threshold;
      Call_value_scaling (Some (-80)); Call_knn "euclidean"],
     inr (Prediction "Unknown" (PrimFloat.sqrt (SpecUtils.float_of_Z 8))
                     (PyInt (-1)))).
Proof.
  refine (proj1 (C8_unknown_room spec_utils scenario_A rooms_deleted
                   _ 1 _ _ _)).
  vm_compute. reflexivity.
Defined.

(** C1, as amended.  For a request whose algorithm name is none of the five,
    the handler calls no classifier and returns no prediction; the name is
    looked at only by the dispatch of lines 203-212, so the handler makes
    the calls of lines 126-192, the very calls it makes for any other
    algorithm name before it classifies. *)
Theorem C1_unrecognized_algorithm (U : Utils) (data : PredictData.t) (db : Db) :
  recognized (PredictData.algorithm data) = false ->
  Forall (fun c => is_classifier_call c = false)
         (trace (predict_room U data db))
  /\ (forall room_name distance optional_value,
        outcome (predict_room U data db)
        <> inr (Prediction room_name distance optional_value))
  /\ trace (predict_room U data db) = trace (conditioned_data U data db)
  /\ (forall a,
        filter (fun c => negb (is_classifier_call c))
               (trace (predict_room U (with_algorithm data a) db))
        = trace (predict_room U data db)).
Proof.
  intros Hun.
  assert (Htr : trace (predict_room U data db)
                = trace (conditioned_data U data db)).
  { rewrite predict_room_trace.
    destruct (outcome (conditioned_data U data db))
      as [e|[early|[[X X_new] y]]]; try apply app_nil_r.
    destruct (size X_new =? 0)%nat; [apply app_nil_r|].
    rewrite (classify_unrecognized U data X X_new y Hun). apply app_nil_r. }
  split; [|split; [|split]].
  - rewrite Htr. apply conditioned_data_trace.
  - intros room_name distance optional_value Hout.
    destruct (predict_room U data db) as [tr o] eqn:Hp. simpl in Hout. subst o.
    apply predict_room_returns in Hp
      as (tr0 & tr1 & X & X_new & y & p & _ & Hk & _).
    rewrite (classify_unrecognized U data X X_new y Hun) in Hk. discriminate.
  - exact Htr.
  - intros a. rewrite Htr, predict_room_trace, conditioned_data_algorithm.
    rewrite filter_app. rewrite filter_all.
    + destruct (outcome (conditioned_data U data db))
        as [e|[early|[[X X_new] y]]]; try apply app_nil_r.
      destruct (size X_new =? 0)%nat; [apply app_nil_r|].
      rewrite filter_none; [apply app_nil_r|].
      eapply Forall_impl; [|apply classify_trace].
      intros c Hc. simpl in Hc. now rewrite Hc.
    + eapply Forall_impl; [|apply conditioned_data_trace].
      intros c Hc. simpl in Hc. now rewrite Hc.
Qed.

Lemma C1_unrecognized_algorithm_witness :
  Forall (fun c => is_classifier_call c = false)
         (trace (predict_room spec_utils scenario_D two_rooms))
  /\ (forall room_name distance optional_value,
        outcome (predict_room spec_utils scenario_D two_rooms)
        <> inr (Prediction room_name distance optional_value))
  /\ trace (predict_room spec_utils scenario_D two_rooms)
     = trace (conditioned_data spec_utils scenario_D two_rooms)
  /\ (forall a,
        filter (fun c => negb (is_classifier_call c))
               (trace (predict_room spec_utils (with_algorithm scenario_D a)
                                    two_rooms))
        = trace (predict_room spec_utils scenario_D two_rooms)).
Proof.
  apply (C1_unrecognized_algorithm spec_utils scenario_D two_rooms).
  reflexivity.
Defined.

(** C1, as stated, fails: for scenario D the handler aggregates, builds the
    feature matrix, imputes, builds the query vector, applies the threshold
    and scales before it looks at the algorithm name, and what it raises
    then is the [UnboundLocalError] of line 214. *)
Lemma C1_counterexample :
  recognized (PredictData.algorithm scenario_D) = false
  /\ predict_room spec_utils scenario_D two_rooms
     = ([Call_process_received_data; Call_process_fingerprint_data;
         Call_prepare_data; Call_handle_missing_values;
         Call_prepare_received_data; Call_handle_router_rssi_threshold;
         Call_value_scaling (Some (-80))],
        inl (UnboundLocalError "predicted_room")).
Proof. split; vm_compute; reflexivity. Qed.

(** Scenario A of the specification: the room of the closer sample. *)
Example scenario_A_predicts_101 :
  exists distance,
    outcome (predict_room spec_utils scenario_A two_rooms)
    = inr (Prediction "101" distance (PyInt (-1))).
Proof. eexists. vm_compute. reflexivity. Qed.

(** Scenario B of the specification: the router heard in one of the two
    samples only is no column of the feature matrix. *)
Example scenario_B_drops_rare_router :
  training_data spec_utils scenario_B bb_heard_once
  = ([Call_process_received_data; Call_process_fingerprint_data;
      Call_remove_rare_routers 1; Call_prepare_data],
     inr (live_scan, ([[Some (-40)]; [Some (-80)]], [1; 2], ["AA"]))).
Proof. vm_compute. reflexivity. Qed.

(** ** Further properties of [add_measurement] *)

Lemma next_id_above (ids : list Z) (x : Z) : In x ids -> x < next_id ids.
Proof.
  unfold next_id. induction ids as [|y ids IH]; simpl; [tauto|].
  intros [->|H]; [lia|]. specialize (IH H). lia.
Qed.

Lemma next_id_fresh (ids : list Z) : ~ In (next_id ids) ids.
Proof. intros H. apply next_id_above in H. lia. Qed.

Lemma NoDup_snoc {A} (l : list A) (x : A) :
  NoDup l -> ~ In x l -> NoDup (l ++ [x]).
Proof.
  intros Hl Hx. apply NoDup_app; [exact Hl|repeat constructor; simpl; tauto|].
  intros a Ha [<-|[]]. contradiction.
Qed.

Lemma find_app_found {A} (p : A -> bool) (l l' : list A) (x : A) :
  find p l = Some x -> find p (l ++ l') = Some x.
Proof.
  induction l as [|y l IH]; simpl; [discriminate|].
  destruct (p y); auto.
Qed.

Lemma find_app_missing {A} (p : A -> bool) (l l' : list A) :
  find p l = None -> find p (l ++ l') = find p l'.
Proof.
  induction l as [|y l IH]; simpl; [reflexivity|].
  destruct (p y); [discriminate|auto].
Qed.

Lemma find_app_none {A} (p : A -> bool) (l l' : list A) :
  find p (l ++ l') = None -> find p l = None.
Proof.
  induction l as [|y l IH]; simpl; [reflexivity|].
  destruct (p y); [discriminate|auto].
Qed.

Lemma is_datetime_check (t : Z) :
  (-62135596800 <=? t) && (t <=? 253402300799) = true <-> is_datetime t.
Proof.
  unfold is_datetime. rewrite andb_true_iff, !Z.leb_le. tauto.
Qed.

(** The paths of [add_measurement] past the test of line 70. *)
Lemma add_measurement_run (data : MeasurementData.t) (db : Db)
      (res : exn + string) (db' : Db) :
  add_measurement data db = (res, db') ->
  ~ missing_data data ->
  exists room db1,
    (find_room data db = Some room /\ db1 = db
     \/ find_room data db = None
        /\ add_room (MeasurementData.room_name data) db = (inr room, db1))
    /\ ends_from_room data room db1 res db'.
Proof.
  intros Hrun Hpass. revert Hrun. unfold add_measurement.
  destruct (_ || _) eqn:Hc; [apply missing_data_check in Hc; contradiction|].
  unfold sbind at 1. unfold query_room_by_name, find_room.
  assert (Hstep : forall room db1,
    (room <- sret room ;;
     timestamp_obj <- utcfromtimestamp (MeasurementData.timestamp data) ;;
     existing_measurement <-
       query_measurement (MeasurementData.device_id data) timestamp_obj ;;
     match existing_measurement with
     | Some _ =>
         sraise (HTTPException 409
           "Measurement with the same device_id and timestamp already exists")
     | None =>
         measurement <- add_measurement_row timestamp_obj
                          (MeasurementData.device_id data) (Room.room_id room) ;;
         pending <- add_routers (Measurement.measurement_id measurement)
                                (MeasurementData.routers data) [] ;;
         commit None pending ;;
         sret "Measurement added successfully"
     end)%session db1 = (res, db') ->
    ends_from_room data room db1 res db').
  { intros room db1.
    unfold ends_from_room, find_sample, sbind, sret, utcfromtimestamp,
      query_measurement.
    destruct (_ && _) eqn:Hr; cbn [sret sraise].
    - apply is_datetime_check in Hr.
      destruct (find _ (measurements db1)) as [m0|] eqn:Hf; cbn [sraise].
      + intros H; inversion H; subst. right; left.
        split; [exact Hr|]. split; [now exists m0|]. auto.
      + destruct (add_measurement_row _ _ _ db1) as [[e|m] db2] eqn:Hm;
          [unfold add_measurement_row in Hm; discriminate|].
        intros H. right; right. split; [exact Hr|split; [reflexivity|]].
        exists m, db2. split; [reflexivity|].
        destruct (add_routers _ _ _ db2) as [[e|pending] db3] eqn:Ha.
        * inversion H; subst. left. exists e. auto.
        * right. exists pending, db3. split; [reflexivity|].
          destruct (commit None pending db3) as [[e|[]] db4] eqn:Hk;
            inversion H; subst; [left; exists e; auto|right; auto].
    - intros H; inversion H; subst. left. repeat split; auto.
      intros Hd. apply is_datetime_check in Hd. congruence. }
  destruct (find _ (rooms db)) as [room|] eqn:Hroom.
  - intros H. exists room, db. split; [left; auto|].
    apply Hstep. exact H.
  - intros H.
    exists (Room.mk (next_id (map Room.room_id (rooms db)))
                    (MeasurementData.room_name data) None None None None).
    eexists. split; [right; split; [reflexivity|reflexivity]|].
    apply Hstep. exact H.
Qed.

Lemma commit_succeeds (r : option Router.t) (p : list MeasurementRouter.t)
      (db db1 : Db) :
  commit r p db = (inr tt, db1) ->
  mr_keys_distinct (measurement_router db ++ p) = true
  /\ rooms db1 = rooms db
  /\ measurements db1 = measurements db
  /\ routers db1 = routers db ++ match r with Some x => [x] | None => [] end
  /\ measurement_router db1 = measurement_router db ++ p.
Proof.
  unfold commit. destruct (mr_keys_distinct _) eqn:Hk; [|discriminate].
  intros H. inversion H; subst. simpl. auto.
Qed.

(** Induction on the loop of lines 97-117: a property of the tables and of
    the pending link rows that the two ways of handling an entry keep holds
    when the loop ends. *)
Lemma add_routers_keeps (P : Db -> list MeasurementRouter.t -> Prop) (mid : Z) :
  (forall db pending e router,
     P db pending -> nonblank e = true ->
     find (fun r => String.eqb (Router.bssid r) (RouterData.bssid e))
          (routers db) = Some router ->
     P db (pending ++ [MeasurementRouter.mk mid (Router.router_id router)
                         (Some (RouterData.signal_strength e))])) ->
  (forall db pending e db1,
     P db pending -> nonblank e = true ->
     find (fun r => String.eqb (Router.bssid r) (RouterData.bssid e))
          (routers db) = None ->
     commit (Some (Router.mk (next_id (map Router.router_id (routers db)))
                             (RouterData.ssid e) (RouterData.bssid e)))
            pending db = (inr tt, db1) ->
     P db1 [MeasurementRouter.mk mid
              (next_id (map Router.router_id (routers db)))
              (Some (RouterData.signal_strength e))]) ->
  forall rs pending db res db',
    P db pending ->
    add_routers mid rs pending db = (res, db') ->
    match res with
    | inr pending' => P db' pending'
    | inl _ => exists p, P db' p
    end.
Proof.
  intros Hfound Hnew. induction rs as [|e rest IH]; intros pending db res db' HP.
  - simpl. unfold sret. intros H. inversion H; subst. exact HP.
  - simpl. destruct (not_str (RouterData.bssid e)) eqn:Hb; [now apply IH|].
    assert (Hnb : nonblank e = true) by (unfold nonblank; now rewrite Hb).
    unfold sbind, query_router_by_bssid.
    destruct (find _ (routers db)) as [router|] eqn:Hf.
    + apply IH. now apply Hfound.
    + destruct (commit _ pending db) as [[err|[]] db1] eqn:Hc.
      * intros H. inversion H; subst.
        apply commit_raises in Hc as [_ ->]. now exists pending.
      * apply IH. eapply Hnew; eauto.
Qed.

Lemma add_routers_links (mid : Z) (rs : list RouterData.t) :
  forall pending db pending' db',
    add_routers mid rs pending db = (inr pending', db') ->
    exists flushed links new_routers,
      measurement_router db' = measurement_router db ++ flushed
      /\ flushed ++ pending' = pending ++ links
      /\ Forall2 (link_of mid db') (filter nonblank rs) links
      /\ routers db' = routers db ++ new_routers
      /\ Forall (fun r =>
                   find (fun x => String.eqb (Router.bssid x) (Router.bssid r))
                        (routers db) = None
                   /\ exists e, In e (filter nonblank rs)
                                /\ Router.bssid r = RouterData.bssid e
                                /\ Router.ssid r = RouterData.ssid e)
                new_routers.
Proof.
  induction rs as [|e rest IH]; intros pending db pending' db'.
  - simpl. unfold sret. intros H. inversion H; subst.
    exists [], [], []. rewrite !app_nil_r. repeat split; constructor.
  - simpl. change (nonblank e) with (negb (not_str (RouterData.bssid e))).
    destruct (not_str (RouterData.bssid e)) eqn:Hb; simpl; [apply IH|].
    unfold sbind, query_router_by_bssid.
    destruct (find _ (routers db)) as [router|] eqn:Hf.
    + intros H.
      apply IH in H as (flushed & links & new & Hmr & Hl & Hall & Hr & Hnew).
      exists flushed, (MeasurementRouter.mk mid (Router.router_id router)
                         (Some (RouterData.signal_strength e)) :: links), new.
      split; [exact Hmr|]. split; [rewrite Hl, <- app_assoc; reflexivity|].
      split; [|split; [exact Hr|]].
      * constructor; [|exact Hall]. exists router. split; [|reflexivity].
        rewrite Hr. now apply find_app_found.
      * eapply Forall_impl; [|exact Hnew].
        intros r (Hn & x & Hx & Hb1 & Hs1). split; [exact Hn|].
        exists x. split; [now right|auto].
    + destruct (commit _ pending db) as [[err|[]] db1] eqn:Hc; [discriminate|].
      apply commit_succeeds in Hc as (_ & _ & _ & Hr1 & Hmr1).
      intros H.
      apply IH in H as (flushed & links & new & Hmr & Hl & Hall & Hr & Hnew).
      exists (pending ++ flushed),
             (MeasurementRouter.mk mid
                (next_id (map Router.router_id (routers db)))
                (Some (RouterData.signal_strength e)) :: links),
             (Router.mk (next_id (map Router.router_id (routers db)))
                        (RouterData.ssid e) (RouterData.bssid e) :: new).
      split; [rewrite Hmr, Hmr1, app_assoc; reflexivity|].
      split; [rewrite <- app_assoc, Hl; reflexivity|].
      split; [|split; [rewrite Hr, Hr1, <- app_assoc; reflexivity|]].
      * constructor; [|exact Hall].
        exists (Router.mk (next_id (map Router.router_id (routers db)))
                          (RouterData.ssid e) (RouterData.bssid e)).
        split; [|reflexivity].
        rewrite Hr, Hr1, <- app_assoc, (find_app_missing _ _ _ Hf).
        simpl. now rewrite String.eqb_refl.
      * constructor.
        -- simpl. split; [exact Hf|]. exists e. split; [now left|auto].
        -- eapply Forall_impl; [|exact Hnew].
           intros r (Hn & x & Hx & Hb1 & Hs1). split.
           ++ rewrite Hr1 in Hn. now apply find_app_none in Hn.
           ++ exists x. split; [now right|auto].
Qed.

Lemma add_measurement_missing (data : MeasurementData.t) (db : Db) :
  missing_data data ->
  add_measurement data db = (inl (HTTPException 400 "Missing data"), db).
Proof.
  intros Hm. apply missing_data_check in Hm.
  unfold add_measurement. now rewrite Hm.
Qed.

Lemma missing_data_dec (data : MeasurementData.t) :
  missing_data data \/ ~ missing_data data.
Proof.
  destruct (not_str (MeasurementData.room_name data)
            || not_str (MeasurementData.device_id data)
            || not_int (MeasurementData.timestamp data)
            || not_list (MeasurementData.routers data)) eqn:Hc.
  - left. now apply missing_data_check.
  - right. intros Hm. apply missing_data_check in Hm. congruence.
Qed.

(** A property of the tables that each insertion of the handler keeps is
    kept by the handler, however it ends. *)
Lemma add_measurement_keeps (P : Db -> Prop) (data : MeasurementData.t) :
  (forall db,
     P db -> find_room data db = None ->
     P (snd (add_room (MeasurementData.room_name data) db))) ->
  (forall db room,
     P db -> In room (rooms db) -> find_sample data db = None ->
     P (snd (add_measurement_row (MeasurementData.timestamp data)
               (MeasurementData.device_id data) (Room.room_id room) db))) ->
  (forall db r pending db1,
     P db ->
     match r with
     | Some router =>
         Router.router_id router = next_id (map Router.router_id (routers db))
         /\ find (fun x => String.eqb (Router.bssid x) (Router.bssid router))
                 (routers db) = None
     | None => True
     end ->
     commit r pending db = (inr tt, db1) -> P db1) ->
  forall db, P db -> P (snd (add_measurement data db)).
Proof.
  intros Hroom Hrow Hcommit db HP.
  destruct (missing_data_dec data) as [Hm|Hpass].
  { now rewrite (add_measurement_missing _ _ Hm). }
  destruct (add_measurement data db) as [res db'] eqn:Hrun. simpl.
  apply add_measurement_run in Hrun as (room & db1 & Hr & Hend); [|exact Hpass].
  assert (H1 : P db1 /\ In room (rooms db1)).
  { destruct Hr as [[Hf ->]|[Hf Ha]].
    - split; [exact HP|]. now apply find_some in Hf.
    - split.
      + specialize (Hroom db HP Hf). now rewrite Ha in Hroom.
      + unfold add_room in Ha. inversion Ha; subst. simpl.
        apply in_or_app. right. now left. }
  destruct H1 as [HP1 Hin].
  destruct Hend as [(_ & _ & ->)|[(_ & _ & _ & ->)|(_ & Hnone & m & db2 & Hm & Hrest)]];
    try exact HP1.
  assert (HP2 : P db2).
  { specialize (Hrow db1 room HP1 Hin Hnone). now rewrite Hm in Hrow. }
  assert (Hloop : forall res3 db3,
            add_routers (Measurement.measurement_id m)
              (MeasurementData.routers data) [] db2 = (res3, db3) -> P db3).
  { intros res3 db3 Ha.
    apply (add_routers_keeps (fun d _ => P d)) with (pending := []) in Ha;
      try exact HP2.
    - destruct res3; [now destruct Ha|exact Ha].
    - auto.
    - intros d pending e d1 Hd _ Hf Hc.
      eapply Hcommit; [exact Hd| |exact Hc]. simpl. auto. }
  destruct Hrest as [(e & Ha & _)|(pending & db3 & Ha & Hfin)].
  - eapply Hloop; eauto.
  - apply Hloop in Ha.
    destruct Hfin as [(e & Hc & _)|(Hc & _)].
    + apply commit_raises in Hc as [_ ->]. exact Ha.
    + eapply Hcommit; [exact Ha| |exact Hc]. exact I.
Qed.

Lemma extends_refl (db : Db) : extends db db.
Proof. repeat split; exists []; now rewrite app_nil_r. Qed.

Lemma extends_trans (a b c : Db) : extends a b -> extends b c -> extends a c.
Proof.
  intros ([l1 H1] & [l2 H2] & [l3 H3] & [l4 H4])
         ([k1 K1] & [k2 K2] & [k3 K3] & [k4 K4]).
  repeat split.
  - exists (l1 ++ k1). now rewrite K1, H1, app_assoc.
  - exists (l2 ++ k2). now rewrite K2, H2, app_assoc.
  - exists (l3 ++ k3). now rewrite K3, H3, app_assoc.
  - exists (l4 ++ k4). now rewrite K4, H4, app_assoc.
Qed.

Lemma add_measurement_extends (data : MeasurementData.t) (db : Db) :
  extends db (snd (add_measurement data db)).
Proof.
  apply (add_measurement_keeps (extends db)); [| | |apply extends_refl].
  - intros d Hd _. eapply extends_trans; [exact Hd|].
    unfold add_room; simpl. repeat split; simpl;
      solve [eexists; reflexivity | exists []; now rewrite app_nil_r].
  - intros d room Hd _ _. eapply extends_trans; [exact Hd|].
    unfold add_measurement_row; simpl. repeat split; simpl;
      solve [eexists; reflexivity | exists []; now rewrite app_nil_r].
  - intros d r pending d1 Hd _ Hc. eapply extends_trans; [exact Hd|].
    apply commit_succeeds in Hc as (_ & H1 & H2 & H3 & H4).
    repeat split.
    + exists []. now rewrite app_nil_r.
    + exists []. now rewrite app_nil_r.
    + eexists. exact H3.
    + eexists. exact H4.
Qed.

(** X1.  However [add_measurement] ends, every table afterwards starts with
    the rows it had before: the handler only appends rows, it neither
    changes nor deletes one. *)
Theorem add_measurement_only_appends (data : MeasurementData.t) (db : Db) :
  let db' := snd (add_measurement data db) in
  (exists l, rooms db' = rooms db ++ l)
  /\ (exists l, measurements db' = measurements db ++ l)
  /\ (exists l, routers db' = routers db ++ l)
  /\ (exists l, measurement_router db' = measurement_router db ++ l).
Proof. exact (add_measurement_extends data db). Qed.

Lemma find_none_not_in {A} (f : A -> string) (k : string) (l : list A) :
  find (fun x => String.eqb (f x) k) l = None -> ~ In k (map f l).
Proof.
  intros Hf Hin. apply in_map_iff in Hin as (x & Hx & Hin).
  apply (find_none _ _ Hf) in Hin. simpl in Hin.
  rewrite Hx, String.eqb_refl in Hin. discriminate.
Qed.

Lemma find_sample_none (data : MeasurementData.t) (db : Db) :
  find_sample data db = None ->
  ~ In (MeasurementData.device_id data, MeasurementData.timestamp data)
       (map (fun m => (Measurement.device_id m, Measurement.timestamp m))
            (measurements db)).
Proof.
  unfold find_sample. intros Hf Hin.
  apply in_map_iff in Hin as (m & Hm & Hin). inversion Hm as [[Hd Ht]].
  apply (find_none _ _ Hf) in Hin. simpl in Hin.
  rewrite Hd, Ht, String.eqb_refl, Z.eqb_refl in Hin. discriminate.
Qed.


Lemma add_measurement_unique_keys (data : MeasurementData.t) (db : Db) :
  unique_keys db -> unique_keys (snd (add_measurement data db)).
Proof.
  apply (add_measurement_keeps unique_keys).
  - intros d (H1 & H2 & H3 & H4 & H5 & H6) Hf.
    unfold add_room, unique_keys; simpl. rewrite !map_app; simpl.
    repeat split; auto.
    + apply NoDup_snoc; [exact H1|apply next_id_fresh].
    + apply NoDup_snoc; [exact H2|]. now apply find_none_not_in.
  - intros d room (H1 & H2 & H3 & H4 & H5 & H6) _ _.
    unfold add_measurement_row, unique_keys; simpl. rewrite !map_app; simpl.
    repeat split; auto.
    apply NoDup_snoc; [exact H3|apply next_id_fresh].
  - intros d r pending d1 (H1 & H2 & H3 & H4 & H5 & H6) Hr Hc.
    apply commit_succeeds in Hc as (Hk & E1 & E2 & E3 & E4).
    unfold unique_keys. rewrite E1, E2, E3, E4.
    repeat split; auto.
    + destruct r as [router|]; [|now rewrite app_nil_r].
      destruct Hr as [Hid _]. rewrite map_app. simpl.
      apply NoDup_snoc; [exact H4|]. rewrite Hid. apply next_id_fresh.
    + destruct r as [router|]; [|now rewrite app_nil_r].
      destruct Hr as [_ Hb]. rewrite map_app. simpl.
      apply NoDup_snoc; [exact H5|]. now apply find_none_not_in.
Qed.

Lemma add_measurement_unique_samples (data : MeasurementData.t) (db : Db) :
  unique_samples db -> unique_samples (snd (add_measurement data db)).
Proof.
  apply (add_measurement_keeps unique_samples).
  - intros d H _. exact H.
  - intros d room H _ Hf. unfold unique_samples, add_measurement_row; simpl.
    rewrite map_app; simpl. apply NoDup_snoc; [exact H|].
    now apply find_sample_none.
  - intros d r pending d1 H _ Hc.
    apply commit_succeeds in Hc as (_ & _ & E2 & _).
    unfold unique_samples. now rewrite E2.
Qed.

(** The foreign keys, together with what the loop of lines 97-117 knows of
    its pending rows: they belong to the measurement [mid], which is stored,
    and point to stored routers. *)
Lemma commit_foreign_keys (mid : Z) (r : option Router.t)
      (pending : list MeasurementRouter.t) (db db1 : Db) :
  foreign_keys db ->
  (exists m, In m (measurements db) /\ Measurement.measurement_id m = mid) ->
  Forall (fun link =>
            MeasurementRouter.measurement_id link = mid
            /\ exists x, In x (routers db)
                         /\ Router.router_id x
                            = MeasurementRouter.router_id link) pending ->
  commit r pending db = (inr tt, db1) ->
  foreign_keys db1
  /\ (exists m, In m (measurements db1) /\ Measurement.measurement_id m = mid)
  /\ (forall x, In x (routers db) -> In x (routers db1))
  /\ (forall x, r = Some x -> In x (routers db1)).
Proof.
  intros [Hfm Hfl] Hm Hp Hc.
  apply commit_succeeds in Hc as (_ & E1 & E2 & E3 & E4).
  assert (Hsub : forall x, In x (routers db) -> In x (routers db1)).
  { intros x Hx. rewrite E3. apply in_or_app. now left. }
  repeat split.
  - intros m Hin. rewrite E2 in Hin. rewrite E1. now apply Hfm.
  - rewrite E4 in H. rewrite E2. apply in_app_or in H as [H|H].
    + now apply Hfl.
    + rewrite Forall_forall in Hp. destruct (Hp _ H) as [-> _]. exact Hm.
  - rewrite E4 in H. apply in_app_or in H as [H|H].
    + destruct (Hfl _ H) as [_ (x & Hx & Hid)]. exists x. auto.
    + rewrite Forall_forall in Hp. destruct (Hp _ H) as [_ (x & Hx & Hid)].
      exists x. auto.
  - now rewrite E2.
  - exact Hsub.
  - intros x ->. rewrite E3. apply in_or_app. right. now left.
Qed.

Lemma add_measurement_foreign_keys (data : MeasurementData.t) (db : Db) :
  foreign_keys db -> foreign_keys (snd (add_measurement data db)).
Proof.
  intros Hfk.
  destruct (missing_data_dec data) as [Hm|Hpass].
  { now rewrite (add_measurement_missing _ _ Hm). }
  destruct (add_measurement data db) as [res db'] eqn:Hrun. simpl.
  apply add_measurement_run in Hrun as (room & db1 & Hr & Hend); [|exact Hpass].
  assert (H1 : foreign_keys db1 /\ In room (rooms db1)).
  { destruct Hr as [[Hf ->]|[Hf Ha]].
    - split; [exact Hfk|]. now apply find_some in Hf.
    - unfold add_room in Ha. inversion Ha; subst. destruct Hfk as [Hfm Hfl].
      split; [split|]; simpl.
      + intros m Hin. destruct (Hfm m Hin) as (x & Hx & Hid).
        exists x. split; [apply in_or_app; now left|exact Hid].
      + exact Hfl.
      + apply in_or_app. right. now left. }
  destruct H1 as [Hfk1 Hin].
  destruct Hend as [(_ & _ & ->)|[(_ & _ & _ & ->)|(_ & _ & m & db2 & Hm & Hrest)]];
    try exact Hfk1.
  unfold add_measurement_row in Hm. inversion Hm; subst m db2. clear Hm.
  set (m := Measurement.mk (next_id (map Measurement.measurement_id
                                         (measurements db1)))
              (MeasurementData.timestamp data)
              (MeasurementData.device_id data) (Room.room_id room)) in *.
  set (db2 := mkDb (rooms db1) (measurements db1 ++ [m]) (routers db1)
                   (measurement_router db1)) in *.
  assert (Hfk2 : foreign_keys db2).
  { destruct Hfk1 as [Hfm Hfl]. split; simpl.
    - intros x Hx. apply in_app_or in Hx as [Hx|[<-|[]]]; [now apply Hfm|].
      exists room. auto.
    - intros link Hl. destruct (Hfl link Hl) as [(x & Hx & Hid) Hrt].
      split; [|exact Hrt]. exists x. split; [apply in_or_app; now left|exact Hid]. }
  assert (Hm2 : exists x, In x (measurements db2)
                          /\ Measurement.measurement_id x
                             = Measurement.measurement_id m).
  { exists m. split; [|reflexivity]. simpl. apply in_or_app. right. now left. }
  set (P := fun (d : Db) (pending : list MeasurementRouter.t) =>
              foreign_keys d
              /\ (exists x, In x (measurements d)
                            /\ Measurement.measurement_id x
                               = Measurement.measurement_id m)
              /\ Forall (fun link =>
                   MeasurementRouter.measurement_id link
                   = Measurement.measurement_id m
                   /\ exists x, In x (routers d)
                                /\ Router.router_id x
                                   = MeasurementRouter.router_id link)
                        pending).
  assert (Hloop : forall res3 db3,
            add_routers (Measurement.measurement_id m)
              (MeasurementData.routers data) [] db2 = (res3, db3) ->
            match res3 with
            | inr pending' => P db3 pending'
            | inl _ => exists p, P db3 p
            end).
  { intros res3 db3 Ha.
    apply (add_routers_keeps P) with (pending := []) in Ha; [exact Ha| | |].
    - intros d pending e router (Hd & Hmd & Hp) _ Hf.
      split; [exact Hd|split; [exact Hmd|]].
      apply Forall_app. split; [exact Hp|]. constructor; [|constructor].
      split; [reflexivity|]. exists router. split; [|reflexivity].
      now apply find_some in Hf.
    - intros d pending e d1 (Hd & Hmd & Hp) _ _ Hc.
      destruct (commit_foreign_keys _ _ _ _ _ Hd Hmd Hp Hc)
        as (Hd1 & Hm1 & _ & Hnew).
      split; [exact Hd1|split; [exact Hm1|]].
      constructor; [|constructor]. split; [reflexivity|].
      eexists. split; [apply Hnew; reflexivity|reflexivity].
    - split; [exact Hfk2|split; [exact Hm2|constructor]]. }
  destruct Hrest as [(e & Ha & _)|(pending & db3 & Ha & Hfin)].
  - apply Hloop in Ha. destruct Ha as (p & Hd & _). exact Hd.
  - apply Hloop in Ha. destruct Ha as (Hd & Hmd & Hp).
    destruct Hfin as [(e & Hc & _)|(Hc & _)].
    + apply commit_raises in Hc as [_ ->]. exact Hd.
    + now destruct (commit_foreign_keys _ _ _ _ _ Hd Hmd Hp Hc).
Qed.

Lemma add_routers_tables (mid : Z) (rs : list RouterData.t)
      (pending : list MeasurementRouter.t) (db : Db)
      (res : exn + list MeasurementRouter.t) (db' : Db) :
  add_routers mid rs pending db = (res, db') ->
  rooms db' = rooms db /\ measurements db' = measurements db.
Proof.
  intros Ha.
  apply (add_routers_keeps
           (fun d _ => rooms d = rooms db /\ measurements d = measurements db))
    in Ha; auto.
  - destruct res; [now destruct Ha|exact Ha].
  - intros d p e d1 [H1 H2] _ _ Hc.
    apply commit_succeeds in Hc as (_ & E1 & E2 & _). now rewrite E1, E2.
Qed.

(** What a request that is answered "Measurement added successfully" has
    left in the tables. *)
Lemma add_measurement_success (data : MeasurementData.t) (db : Db)
      (msg : string) (db' : Db) :
  add_measurement data db = (inr msg, db') ->
  ~ missing_data data
  /\ is_datetime (MeasurementData.timestamp data)
  /\ find_sample data db = None
  /\ exists room links new_routers,
       find_room data db' = Some room
       /\ rooms db' = rooms db ++ match find_room data db with
                                  | Some _ => []
                                  | None => [room]
                                  end
       /\ (find_room data db = None ->
           Room.room_id room = next_id (map Room.room_id (rooms db)))
       /\ measurements db'
          = measurements db
            ++ [Measurement.mk
                  (next_id (map Measurement.measurement_id (measurements db)))
                  (MeasurementData.timestamp data)
                  (MeasurementData.device_id data) (Room.room_id room)]
       /\ measurement_router db' = measurement_router db ++ links
       /\ Forall2 (link_of (next_id (map Measurement.measurement_id
                                         (measurements db))) db')
                  (filter nonblank (MeasurementData.routers data)) links
       /\ routers db' = routers db ++ new_routers
       /\ Forall (fun r =>
                    find (fun x => String.eqb (Router.bssid x)
                                              (Router.bssid r))
                         (routers db) = None
                    /\ exists e,
                         In e (filter nonblank (MeasurementData.routers data))
                         /\ Router.bssid r = RouterData.bssid e
                         /\ Router.ssid r = RouterData.ssid e)
                 new_routers
       /\ mr_keys_distinct (measurement_router db') = true.
Proof.
  intros Hrun.
  assert (Hpass : ~ missing_data data).
  { intros Hm. rewrite (add_measurement_missing _ _ Hm) in Hrun. discriminate. }
  split; [exact Hpass|].
  apply add_measurement_run in Hrun as (room & db1 & Hr & Hend); [|exact Hpass].
  destruct Hend as [(_ & Hres & _)|[(_ & _ & Hres & _)|
                    (Hdt & Hnone & m & db2 & Hm & Hrest)]];
    try discriminate.
  destruct Hrest as [(e & _ & Hres)|(pending & db3 & Ha & Hfin)];
    [discriminate|].
  destruct Hfin as [(e & _ & Hres)|(Hc & _)]; [discriminate|].
  unfold add_measurement_row in Hm. inversion Hm; subst m db2. clear Hm.
  simpl in Ha.
  destruct (add_routers_tables _ _ _ _ _ _ Ha) as [Hrooms3 Hmeas3].
  simpl in Hrooms3, Hmeas3.
  apply add_routers_links in Ha
    as (flushed & links & new & Hmr3 & Hl & Hall & Hr3 & Hnew).
  simpl in Hmr3, Hl, Hr3, Hnew.
  apply commit_succeeds in Hc as (Hk & E1 & E2 & E3 & E4).
  rewrite app_nil_r in E3.
  assert (Hdb1 : rooms db1 = rooms db ++ match find_room data db with
                                         | Some _ => []
                                         | None => [room]
                                         end
                 /\ measurements db1 = measurements db
                 /\ routers db1 = routers db
                 /\ measurement_router db1 = measurement_router db
                 /\ find_room data db1 = Some room
                 /\ (find_room data db = None ->
                     Room.room_id room = next_id (map Room.room_id (rooms db)))).
  { destruct Hr as [[Hf ->]|[Hf Hadd]].
    - rewrite Hf, app_nil_r. repeat split; auto. intros; discriminate.
    - rewrite Hf. unfold add_room in Hadd. inversion Hadd; subst. simpl.
      repeat split; auto.
      unfold find_room in *. simpl. rewrite (find_app_missing _ _ _ Hf).
      simpl. now rewrite String.eqb_refl. }
  destruct Hdb1 as (R1 & M1 & T1 & L1 & F1 & I1).
  split; [exact Hdt|]. split.
  { unfold find_sample in *. now rewrite <- M1. }
  exists room, links, new. 
  assert (Hroutes : routers db' = routers db3) by exact E3.
  repeat split.
  - unfold find_room in *. now rewrite E1, Hrooms3.
  - now rewrite E1, Hrooms3.
  - exact I1.
  - now rewrite E2, Hmeas3, M1.
  - rewrite E4, Hmr3, L1, <- app_assoc, Hl. reflexivity.
  - rewrite <- M1.
    eapply Forall2_impl; [|exact Hall].
    intros e link (router & Hf & ->). exists router.
    split; [now rewrite Hroutes|reflexivity].
  - now rewrite E3, Hr3, T1.
  - now rewrite <- T1.
  - rewrite E4. exact Hk.
Qed.



Lemma NoDup_map_injective {A B} (f : A -> B) (l : list A) (x y : A) :
  NoDup (map f l) -> In x l -> In y l -> f x = f y -> x = y.
Proof.
  induction l as [|a l IH]; simpl; [tauto|].
  intros Hn Hx Hy Hf. inversion Hn as [|? ? Ha Hl]; subst.
  destruct Hx as [->|Hx], Hy as [->|Hy]; auto.
  - exfalso. apply Ha. rewrite Hf. now apply in_map.
  - exfalso. apply Ha. rewrite <- Hf. now apply in_map.
Qed.



Lemma add_measurement_conflict (data : MeasurementData.t) (db : Db)
      (room : Room.t) (m : Measurement.t) :
  ~ missing_data data ->
  find_room data db = Some room ->
  is_datetime (MeasurementData.timestamp data) ->
  find_sample data db = Some m ->
  add_measurement data db
  = (inl (HTTPException 409
       "Measurement with the same device_id and timestamp already exists"),
     db).
Proof.
  intros Hpass Hroom Hdt Hm. unfold add_measurement.
  destruct (_ || _) eqn:Hc; [apply missing_data_check in Hc; contradiction|].
  unfold find_room in Hroom. unfold find_sample in Hm.
  unfold sbind, sret, query_room_by_name, query_measurement.
  rewrite Hroom, (utcfromtimestamp_datetime _ _ Hdt), Hm. reflexivity.
Qed.

(** X2.  A request that is answered "Measurement added successfully" has
    added exactly one measurement, with a new identifier, the device and the
    time of the request and the room that now carries the request's room
    name; the new link rows are one per entry with a non-empty bssid, in the
    order of the request, each with the entry's signal strength and the
    router that now carries the entry's bssid; at most one room is new, and
    every new router has the bssid and ssid of an entry whose bssid was not
    stored. *)
Theorem add_measurement_stores_request (data : MeasurementData.t) (db : Db)
    (msg : string) (db' : Db) :
  add_measurement data db = (inr msg, db') ->
  exists room links new_routers,
    find_room data db' = Some room
    /\ rooms db' = rooms db ++ match find_room data db with
                               | Some _ => []
                               | None => [room]
                               end
    /\ measurements db'
       = measurements db
         ++ [Measurement.mk
               (next_id (map Measurement.measurement_id (measurements db)))
               (MeasurementData.timestamp data)
               (MeasurementData.device_id data) (Room.room_id room)]
    /\ measurement_router db' = measurement_router db ++ links
    /\ Forall2 (link_of (next_id (map Measurement.measurement_id
                                      (measurements db))) db')
               (filter nonblank (MeasurementData.routers data)) links
    /\ routers db' = routers db ++ new_routers
    /\ Forall (fun r =>
                 find (fun x => String.eqb (Router.bssid x) (Router.bssid r))
                      (routers db) = None
                 /\ exists e,
                      In e (filter nonblank (MeasurementData.routers data))
                      /\ Router.bssid r = RouterData.bssid e
                      /\ Router.ssid r = RouterData.ssid e)
              new_routers.
Proof.
  intros H. apply add_measurement_success in H
    as (_ & _ & _ & room & links & new
        & H1 & H2 & _ & H3 & H4 & H5 & H6 & H7 & _).
  now exists room, links, new.
Qed.



(** X4.  Sending again a request that was answered "Measurement added
    successfully" is answered 409, and this second request leaves every
    table as it was. *)
Theorem add_measurement_again_conflicts (data : MeasurementData.t) (db : Db)
    (msg : string) (db' : Db) :
  add_measurement data db = (inr msg, db') ->
  add_measurement data db'
  = (inl (HTTPException 409
       "Measurement with the same device_id and timestamp already exists"),
     db').
Proof.
  intros H. apply add_measurement_success in H
    as (Hpass & Hdt & Hnone & room & links & new
        & Hroom & _ & _ & Hmeas & _).
  eapply add_measurement_conflict; eauto.
  unfold find_sample in *. rewrite Hmeas, (find_app_missing _ _ _ Hnone).
  simpl. now rewrite String.eqb_refl, Z.eqb_refl.
Qed.



Lemma sbind_ext {A B} (m : Session A) (f g : A -> Session B) (db : Db) :
  (forall a d, f a d = g a d) -> sbind m f db = sbind m g db.
Proof.
  intros H. unfold sbind. destruct (m db) as [[e|a] d]; [reflexivity|apply H].
Qed.

Lemma add_routers_skips_blank (mid : Z) (rs : list RouterData.t) :
  forall pending db,
    add_routers mid rs pending db
    = add_routers mid (filter nonblank rs) pending db.
Proof.
  induction rs as [|e rest IH]; intros pending db; [reflexivity|].
  simpl. unfold nonblank at 1.
  destruct (not_str (RouterData.bssid e)) eqn:Hb; simpl; [apply IH|].
  rewrite Hb. apply sbind_ext. intros [router|] d; [apply IH|].
  apply sbind_ext. intros new_id d1. apply sbind_ext. intros _ d2. apply IH.
Qed.

(** X6.  The entries of a request whose bssid is empty are skipped: when at
    least one entry has a bssid, the request is answered as, and leaves the
    tables as, the request without the empty entries. *)
Theorem add_measurement_skips_blank (data : MeasurementData.t) (db : Db) :
  filter nonblank (MeasurementData.routers data) <> [] ->
  add_measurement data db
  = add_measurement
      (with_routers data (filter nonblank (MeasurementData.routers data))) db.
Proof.
  intros Hne. unfold add_measurement, with_routers. simpl.
  assert (Hl : not_list (MeasurementData.routers data)
               = not_list (filter nonblank (MeasurementData.routers data))).
  { destruct (MeasurementData.routers data) as [|e l]; [now destruct Hne|].
    destruct (filter nonblank (e :: l)); [now destruct Hne|reflexivity]. }
  rewrite <- Hl. destruct (_ || _); [reflexivity|].
  apply sbind_ext. intros found d. apply sbind_ext. intros room d1.
  apply sbind_ext. intros ts d2. apply sbind_ext. intros [m|] d3; [reflexivity|].
  apply sbind_ext. intros meas d4.
  unfold sbind at 1 3. now rewrite add_routers_skips_blank.
Qed.


(** X8.  A router that is stored keeps its row whatever the request says:
    after the handler, the first router of a stored bssid is the one it was
    before, with its identifier and its ssid. *)
Theorem add_measurement_keeps_router (data : MeasurementData.t) (db : Db)
    (b : string) (r : Router.t) :
  find (fun x => String.eqb (Router.bssid x) b) (routers db) = Some r ->
  find (fun x => String.eqb (Router.bssid x) b)
       (routers (snd (add_measurement data db))) = Some r.
Proof.
  intros Hf. destruct (add_measurement_extends data db) as (_ & _ & [l ->] & _).
  now apply find_app_found.
Qed.

(** X9.  The primary keys, the unique room names and bssids and the
    composite key of the link table: when they hold of the tables before
    the handler, they hold of the tables after it, however it ends. *)
Theorem add_measurement_keeps_unique_keys (data : MeasurementData.t) (db : Db) :
  unique_keys db ->
  forall res db', add_measurement data db = (res, db') -> unique_keys db'.
Proof.
  intros Hu res db' H. pose proof (add_measurement_unique_keys data db Hu) as K.
  now rewrite H in K.
Qed.

(** X10.  The foreign keys: when every measurement has its room and every
    link row its measurement and its router before the handler, so it is
    after it, however it ends. *)
Theorem add_measurement_keeps_foreign_keys (data : MeasurementData.t) (db : Db) :
  foreign_keys db ->
  forall res db', add_measurement data db = (res, db') -> foreign_keys db'.
Proof.
  intros Hu res db' H. pose proof (add_measurement_foreign_keys data db Hu) as K.
  now rewrite H in K.
Qed.

(** X11.  No two measurements with the same device and time: when that
    holds before the handler, it holds after it, however it ends. *)
Theorem add_measurement_keeps_unique_samples (data : MeasurementData.t)
    (db : Db) :
  unique_samples db ->
  forall res db', add_measurement data db = (res, db') -> unique_samples db'.
Proof.
  intros Hu res db' H.
  pose proof (add_measurement_unique_samples data db Hu) as K.
  now rewrite H in K.
Qed.


(** X13.  After a request that is answered "Measurement added
    successfully", on tables whose rooms have distinct identifiers, the room
    identifier of the new measurement resolves to the room name of the
    request. *)
Theorem add_measurement_room_name_round_trip (data : MeasurementData.t)
    (db : Db) (msg : string) (db' : Db) :
  add_measurement data db = (inr msg, db') ->
  NoDup (map Room.room_id (rooms db)) ->
  exists m,
    measurements db' = measurements db ++ [m]
    /\ handle_get_room_name_by_id (Measurement.room_id m) db'
       = MeasurementData.room_name data.
Proof.
  intros H Hids. apply add_measurement_success in H
    as (_ & _ & _ & room & links & new & Hroom & Hrooms & Hid & Hmeas & _).
  eexists. split; [exact Hmeas|]. simpl.
  assert (Hids' : NoDup (map Room.room_id (rooms db'))).
  { rewrite Hrooms. destruct (find_room data db); [now rewrite app_nil_r|].
    rewrite map_app. simpl. apply NoDup_snoc; [exact Hids|].
    rewrite Hid; [apply next_id_fresh|reflexivity]. }
  unfold find_room in Hroom. apply find_some in Hroom as [Hin Hname].
  apply String.eqb_eq in Hname.
  unfold handle_get_room_name_by_id, query_room_by_id.
  destruct (find _ (rooms db')) as [first|] eqn:Hf.
  - apply find_some in Hf as [Hin' Hid']. apply Z.eqb_eq in Hid'.
    assert (first = room)
      by (apply (NoDup_map_injective Room.room_id (rooms db')); auto).
    now subst first.
  - apply (find_none _ _ Hf) in Hin. now rewrite Z.eqb_refl in Hin.
Qed.

(** *** The sample tables are consistent *)

Ltac distinct :=
  repeat (constructor; [simpl; intuition (discriminate || lia)|]);
  constructor.

Lemma two_rooms_unique_keys : unique_keys two_rooms.
Proof. unfold unique_keys; simpl. repeat split; try distinct. Qed.

Ltac pick_from l :=
  lazymatch l with
  | ?x :: ?t => first [ exists x; split; [simpl; auto 10|reflexivity]
                      | pick_from t ]
  end.

Ltac pick :=
  match goal with
  | |- exists x, In x ?l /\ _ => let l' := eval hnf in l in pick_from l'
  end.

Lemma two_rooms_foreign_keys : foreign_keys two_rooms.
Proof.
  split.
  - intros m Hm. simpl in Hm. destruct Hm as [<-|[<-|[]]]; pick.
  - intros link Hl. simpl in Hl.
    destruct Hl as [<-|[<-|[<-|[<-|[]]]]]; split; pick.
Qed.

Lemma two_rooms_unique_samples : unique_samples two_rooms.
Proof. unfold unique_samples; simpl. distinct. Qed.


Lemma add_measurement_stores_request_witness :
  exists room links new_routers,
    find_room new_sample new_sample_stored = Some room
    /\ rooms new_sample_stored
       = rooms two_rooms ++ match find_room new_sample two_rooms with
                            | Some _ => []
                            | None => [room]
                            end
    /\ measurements new_sample_stored
       = measurements two_rooms
         ++ [Measurement.mk
               (next_id (map Measurement.measurement_id
                             (measurements two_rooms)))
               (MeasurementData.timestamp new_sample)
               (MeasurementData.device_id new_sample) (Room.room_id room)]
    /\ measurement_router new_sample_stored
       = measurement_router two_rooms ++ links
    /\ Forall2 (link_of (next_id (map Measurement.measurement_id
                                      (measurements two_rooms)))
                        new_sample_stored)
               (filter nonblank (MeasurementData.routers new_sample)) links
    /\ routers new_sample_stored = routers two_rooms ++ new_routers
    /\ Forall (fun r =>
                 find (fun x => String.eqb (Router.bssid x) (Router.bssid r))
                      (routers two_rooms) = None
                 /\ exists e,
                      In e (filter nonblank (MeasurementData.routers new_sample))
                      /\ Router.bssid r = RouterData.bssid e
                      /\ Router.ssid r = RouterData.ssid e)
              new_routers.
Proof.
  apply (add_measurement_stores_request new_sample two_rooms
           "Measurement added successfully").
  vm_compute. reflexivity.
Defined.


Lemma add_measurement_again_conflicts_witness :
  add_measurement new_sample new_sample_stored
  = (inl (HTTPException 409
       "Measurement with the same device_id and timestamp already exists"),
     new_sample_stored).
Proof.
  apply (add_measurement_again_conflicts new_sample two_rooms
           "Measurement added successfully").
  vm_compute. reflexivity.
Defined.


Lemma add_measurement_skips_blank_witness :
  add_measurement blank_first two_rooms
  = add_measurement
      (with_routers blank_first
         (filter nonblank (MeasurementData.routers blank_first))) two_rooms.
Proof.
  apply (add_measurement_skips_blank blank_first two_rooms).
  simpl. discriminate.
Defined.


Lemma add_measurement_keeps_router_witness :
  find (fun x => String.eqb (Router.bssid x) "AA")
       (routers (snd (add_measurement renamed_router two_rooms)))
  = Some (Router.mk 1 "eduroam" "AA").
Proof.
  apply (add_measurement_keeps_router renamed_router two_rooms "AA").
  reflexivity.
Defined.

Lemma add_measurement_keeps_unique_keys_witness :
  unique_keys new_sample_stored.
Proof.
  apply (add_measurement_keeps_unique_keys new_sample two_rooms
           two_rooms_unique_keys (inr "Measurement added successfully")).
  vm_compute. reflexivity.
Defined.

Lemma add_measurement_keeps_foreign_keys_witness :
  foreign_keys new_sample_stored.
Proof.
  apply (add_measurement_keeps_foreign_keys new_sample two_rooms
           two_rooms_foreign_keys (inr "Measurement added successfully")).
  vm_compute. reflexivity.
Defined.

Lemma add_measurement_keeps_unique_samples_witness :
  unique_samples new_sample_stored.
Proof.
  apply (add_measurement_keeps_unique_samples new_sample two_rooms
           two_rooms_unique_samples (inr "Measurement added successfully")).
  vm_compute. reflexivity.
Defined.


Lemma add_measurement_room_name_round_trip_witness :
  exists m,
    measurements new_sample_stored = measurements two_rooms ++ [m]
    /\ handle_get_room_name_by_id (Measurement.room_id m) new_sample_stored
       = "103".
Proof.
  apply (add_measurement_room_name_round_trip new_sample two_rooms
           "Measurement added successfully").
  - vm_compute. reflexivity.
  - simpl. distinct.
Defined.

(** ** Further properties of [predict_room] *)

Lemma rows_of_measurement_listed (db : Db) (m : Measurement.t)
      (links : list MeasurementRouter.t) :
  (forall link, In link links ->
     exists router,
       query_router_by_id db (MeasurementRouter.router_id link) = Some router) ->
  exists rows,
    rows_of_measurement db m links = inr rows
    /\ Forall2 (fun link row =>
                  exists router,
                    query_router_by_id db (MeasurementRouter.router_id link)
                    = Some router
                    /\ row = row_of m link router)
               links rows.
Proof.
  induction links as [|link links IH]; intros Hres.
  - exists []. split; [reflexivity|constructor].
  - destruct (Hres link (or_introl eq_refl)) as [router Hr].
    destruct IH as (rows & Hrows & Hall).
    { intros l Hl. apply Hres. now right. }
    simpl. rewrite Hr, Hrows. eexists. split; [reflexivity|].
    constructor; [|exact Hall]. now exists router.
Qed.

Lemma collect_result_listed (db : Db) (ign : option (list Z)) :
  routers_resolve db ->
  forall ms,
    exists blocks,
      collect_result db ign ms = inr (List.concat blocks)
      /\ Forall2 (rows_of_sample db) (filter (kept ign) ms) blocks.
Proof.
  intros Hres. induction ms as [|m ms IH].
  - exists []. split; [reflexivity|constructor].
  - destruct IH as (blocks & Hrows & Hall).
    simpl. unfold kept at 1.
    destruct (ignored ign (Measurement.measurement_id m)) eqn:Hig; simpl.
    + exists blocks. auto.
    + destruct (rows_of_measurement_listed db m
                  (query_measurement_routers db (Measurement.measurement_id m)))
        as (mine & Hmine & Hmall).
      { intros l Hl. apply Hres. unfold query_measurement_routers in Hl.
        now apply filter_In in Hl. }
      rewrite Hmine, Hrows. exists (mine :: blocks). split; [reflexivity|].
      constructor; [|exact Hall].
      exists (query_measurement_routers db (Measurement.measurement_id m)).
      split; [apply Permutation_refl|exact Hmall].
Qed.

(** X14.  When every link row points to a stored router, the rows that
    lines 150-169 collect are the rows of the measurements that the request
    does not ignore, measurement by measurement in the order of the
    measurements table; for each of them there is exactly one row for each
    of its link rows, carrying the measurement's identifier, time, device
    and room, the router's bssid and ssid and the link's signal strength, in
    the order of the query of line 158, which the source leaves to the
    database.  An ignored measurement contributes no row, and no other row
    is collected. *)
Theorem collect_result_kept_samples (db : Db) (ign : option (list Z)) :
  routers_resolve db ->
  exists blocks,
    collect_result db ign (measurements db) = inr (List.concat blocks)
    /\ Forall2 (rows_of_sample db) (filter (kept ign) (measurements db))
               blocks.
Proof. intros H. now apply collect_result_listed. Qed.

Lemma rows_of_measurement_dangling (db : Db) (m : Measurement.t)
      (links : list MeasurementRouter.t) (link : MeasurementRouter.t) :
  In link links ->
  query_router_by_id db (MeasurementRouter.router_id link) = None ->
  rows_of_measurement db m links
  = inl (AttributeError "'NoneType' object has no attribute 'bssid'").
Proof.
  induction links as [|l links IH]; intros Hin Hq; [destruct Hin|].
  simpl. destruct Hin as [->|Hin]; [now rewrite Hq|].
  destruct (query_router_by_id db (MeasurementRouter.router_id l));
    [|reflexivity].
  now rewrite (IH Hin Hq).
Qed.

Lemma rows_of_measurement_raises (db : Db) (m : Measurement.t)
      (links : list MeasurementRouter.t) (e : exn) :
  rows_of_measurement db m links = inl e ->
  e = AttributeError "'NoneType' object has no attribute 'bssid'".
Proof.
  induction links as [|l links IH]; simpl; [discriminate|].
  destruct (query_router_by_id db (MeasurementRouter.router_id l)).
  - destruct (rows_of_measurement db m links); [|discriminate].
    intros H. inversion H; subst. now apply IH.
  - intros H. now inversion H.
Qed.

Lemma collect_result_dangling (db : Db) (ign : option (list Z))
      (ms : list Measurement.t) (m : Measurement.t)
      (link : MeasurementRouter.t) :
  In m ms ->
  ignored ign (Measurement.measurement_id m) = false ->
  In link (measurement_router db) ->
  MeasurementRouter.measurement_id link = Measurement.measurement_id m ->
  query_router_by_id db (MeasurementRouter.router_id link) = None ->
  collect_result db ign ms
  = inl (AttributeError "'NoneType' object has no attribute 'bssid'").
Proof.
  intros Hm Hig Hl Hid Hq. induction ms as [|m0 ms IH]; [destruct Hm|].
  simpl. destruct Hm as [->|Hm].
  - rewrite Hig.
    rewrite (rows_of_measurement_dangling db m _ link); auto.
    unfold query_measurement_routers. apply filter_In.
    split; [exact Hl|now apply Z.eqb_eq].
  - destruct (ignored ign (Measurement.measurement_id m0)); [now apply IH|].
    destruct (rows_of_measurement db m0 _) as [e|rows] eqn:Hr.
    + apply rows_of_measurement_raises in Hr. now subst.
    + now rewrite (IH Hm).
Qed.

(** X15.  When a measurement that the request does not ignore has a link
    row whose router is not stored, a request with routers ends with the
    [AttributeError] of line 166; of [utils] only [process_received_data]
    has been called. *)
Theorem predict_room_dangling_router (U : Utils) (data : PredictData.t)
    (db : Db) (received_data : Received U) (m : Measurement.t)
    (link : MeasurementRouter.t) :
  PredictData.routers data <> [] ->
  process_received_data U (PredictData.routers data) = inr received_data ->
  In m (measurements db) ->
  ignored (PredictData.ignore_measurements data)
          (Measurement.measurement_id m) = false ->
  In link (measurement_router db) ->
  MeasurementRouter.measurement_id link = Measurement.measurement_id m ->
  query_router_by_id db (MeasurementRouter.router_id link) = None ->
  predict_room U data db
  = ([Call_process_received_data],
     inl (AttributeError "'NoneType' object has no attribute 'bssid'")).
Proof.
  intros Hne Hrec Hm Hig Hl Hid Hq.
  assert (Hnl : not_list (PredictData.routers data) = false).
  { destruct (PredictData.routers data); [now destruct Hne|reflexivity]. }
  unfold predict_room, classified, conditioned_data, training_data.
  rewrite Hnl, Hrec.
  rewrite (collect_result_dangling db _ _ m link Hm Hig Hl Hid Hq).
  reflexivity.
Qed.

Section FurtherPredictRoom.
Context (U : Utils).

Lemma predict_room_training_raises data db tr e :
  training_data U data db = (tr, inl e) ->
  predict_room U data db = (tr, inl e).
Proof.
  intros H. unfold predict_room, classified, conditioned_data.
  now rewrite H.
Qed.

Lemma training_data_needs_threshold data db tr r :
  PredictData.router_presence_threshold data = None ->
  training_data U data db <> (tr, inr r).
Proof.
  intros Hnone H. destruct r as [received_data Xy].
  apply training_data_returns in H as (result & rooms & out & _ & _ & _ & Hf & _).
  apply filter_rooms_returns in Hf as (r1 & r2 & t & _ & _ & Ht & _).
  congruence.
Qed.

Lemma training_data_stops_at_threshold data db :
  PredictData.router_presence_threshold data = None ->
  ~ In Call_prepare_data (trace (training_data U data db)).
Proof.
  intros Hnone.
  unfold training_data, filter_rooms, bind, invoke, ret, raise, lift, trace.
  rewrite Hnone.
  repeat (break_match; simpl in *; try discriminate);
    intuition discriminate.
Qed.
End FurtherPredictRoom.

(** X16.  A request that carries an explicit [null] as
    [router_presence_threshold] never gets an answer: the comparison of
    line 179 raises, if nothing has raised before, and the handler ends
    with an exception without having called [prepare_data] or anything
    after it. *)
Theorem predict_room_null_threshold (U : Utils) (data : PredictData.t)
    (db : Db) :
  PredictData.router_presence_threshold data = None ->
  (exists e, outcome (predict_room U data db) = inl e)
  /\ ~ In Call_prepare_data (trace (predict_room U data db))
  /\ Forall (fun c => is_downstream_call c = false)
            (trace (predict_room U data db)).
Proof.
  intros Hnone.
  destruct (training_data U data db) as [tr [e|r]] eqn:Ht.
  - rewrite (predict_room_training_raises U data db tr e Ht). simpl.
    split; [now exists e|].
    change tr with (trace (tr, @inl exn
      (Received U * (ndarray cell * list Z * list string)) e)).
    rewrite <- Ht. split.
    + now apply training_data_stops_at_threshold.
    + apply training_data_trace.
  - exfalso. now apply (training_data_needs_threshold U data db tr r Hnone).
Qed.

Lemma predict_room_null_threshold_witness :
  (exists e, outcome (predict_room spec_utils null_threshold two_rooms) = inl e)
  /\ ~ In Call_prepare_data
          (trace (predict_room spec_utils null_threshold two_rooms))
  /\ Forall (fun c => is_downstream_call c = false)
            (trace (predict_room spec_utils null_threshold two_rooms)).
Proof.
  apply (predict_room_null_threshold spec_utils null_threshold two_rooms).
  reflexivity.
Defined.

(** X17.  When the query vector that [prepare_received_data] returns has no
    element, the handler ends at line 189 with the [ValueError] that numpy
    raises for the minimum of an empty array, after imputation and before
    the threshold and the scaling: the test of line 194 is not reached. *)
Theorem predict_room_empty_query_vector (U : Utils) (data : PredictData.t)
    (db : Db) (tr0 : list call) (received_data : Received U)
    (X0 : ndarray cell) (y : list Z) (macs : list string)
    (X_imputed X_query : ndarray cell) :
  training_data U data db = (tr0, inr (received_data, (X0, y, macs))) ->
  size X0 <> 0%nat ->
  y <> [] ->
  handle_missing_values U X0 macs received_data
    (PredictData.handle_missing_values_strategy data) = inr X_imputed ->
  prepare_received_data U received_data macs = inr X_query ->
  size X_query = 0%nat ->
  predict_room U data db
  = (tr0 ++ [Call_handle_missing_values; Call_prepare_received_data],
     inl (ValueError
       "zero-size array to reduction operation minimum which has no identity")).
Proof.
  intros Ht HX Hy Hi Hq Hz.
  assert (Hmin : min_rssi X_imputed X_query
                 = inl (ValueError
       "zero-size array to reduction operation minimum which has no identity")).
  { unfold min_rssi, np_min. unfold size in Hz.
    destruct (List.concat X_query); [|discriminate].
    destruct (List.concat X_imputed); [reflexivity|].
    destruct (existsb _ _); reflexivity. }
  unfold predict_room, classified, conditioned_data, condition.
  rewrite Ht. cbn [bind fst snd].
  apply Nat.eqb_neq in HX. rewrite HX.
  destruct y as [|y0 y]; [now destruct Hy|]. cbn [List.length Nat.eqb orb].
  rewrite Hi, Hq. cbn. rewrite Hmin. reflexivity.
Qed.

Lemma predict_room_empty_query_vector_witness :
  predict_room deaf_utils scenario_A two_rooms
  = ([Call_process_received_data; Call_process_fingerprint_data;
      Call_prepare_data; Call_handle_missing_values;
      Call_prepare_received_data],
     inl (ValueError
       "zero-size array to reduction operation minimum which has no identity")).
Proof.
  refine (predict_room_empty_query_vector deaf_utils scenario_A two_rooms
            [Call_process_received_data; Call_process_fingerprint_data;
             Call_prepare_data]
            _ _ _ _ _ [[]] _ _ _ _ _ _).
  - vm_compute. reflexivity.
  - vm_compute. discriminate.
  - discriminate.
  - vm_compute. reflexivity.
  - reflexivity.
  - reflexivity.
Defined.

(** X18.  The value that reaches [value_scaling] as [min_rssi_value] when
    readings are missing: it is [nan] as soon as the imputed training matrix
    holds a [nan]; and when that matrix holds none but the query vector does,
    it is the least cell of the training matrix alone, whatever the query
    vector holds. *)
Theorem min_rssi_value_with_nan (U : Utils) (data : PredictData.t) (db : Db)
    (tr : list call) (X X_new : ndarray (Scaled U)) (y : list Z) :
  conditioned_data U data db = (tr, inr (inr (X, X_new, y))) ->
  exists tr0 received_data X0 macs X_imputed X_query m,
    training_data U data db = (tr0, inr (received_data, (X0, y, macs)))
    /\ handle_missing_values U X0 macs received_data
         (PredictData.handle_missing_values_strategy data) = inr X_imputed
    /\ prepare_received_data U received_data macs = inr X_query
    /\ In (Call_value_scaling m) tr
    /\ (Exists (fun c => is_nan c = true) (List.concat X_imputed) -> m = None)
    /\ (Forall (fun c => is_nan c = false) (List.concat X_imputed) ->
        Exists (fun c => is_nan c = true) (List.concat X_query) ->
        exists v,
          m = Some v
          /\ In (Some v) (List.concat X_imputed)
          /\ (forall w, In (Some w) (List.concat X_imputed) -> v <= w)).
Proof.
  intros H.
  apply conditioned_data_returns in H
    as (tr0 & tr1 & received_data & X0 & macs & Ht & _ & Hc & ->).
  apply condition_returns in Hc
    as (X_imputed & X_query & a & b & X_t & X_query_t
        & H1 & H2 & Ha & Hb & _ & _ & ->).
  exists tr0, received_data, X0, macs, X_imputed, X_query, (py_min a b).
  repeat (split; [assumption|]). split; [|split].
  - apply in_or_app. right. simpl. auto.
  - intros Hex. rewrite (np_min_nan _ _ Ha Hex).
    unfold py_min, cell_ltb. now destruct b.
  - intros Hall Hex. rewrite (np_min_nan _ _ Hb Hex).
    destruct (np_min_least _ _ Ha Hall) as (v & -> & Hin & Hle).
    exists v. auto.
Qed.

Lemma min_rssi_value_with_nan_witness :
  exists tr0 received_data X0 macs X_imputed X_query m,
    training_data spec_utils half_heard two_rooms
    = (tr0, inr (received_data, (X0, [1; 2], macs)))
    /\ handle_missing_values spec_utils X0 macs received_data
         (PredictData.handle_missing_values_strategy half_heard)
       = inr X_imputed
    /\ prepare_received_data spec_utils received_data macs = inr X_query
    /\ In (Call_value_scaling m)
          [Call_process_received_data; Call_process_fingerprint_data;
           Call_prepare_data; Call_handle_missing_values;
           Call_prepare_received_data; Call_handle_router_rssi_threshold;
           Call_value_scaling (Some (-80))]
    /\ (Exists (fun c => is_nan c = true) (List.concat X_imputed) -> m = None)
    /\ (Forall (fun c => is_nan c = false) (List.concat X_imputed) ->
        Exists (fun c => is_nan c = true) (List.concat X_query) ->
        exists v,
          m = Some v
          /\ In (Some v) (List.concat X_imputed)
          /\ (forall w, In (Some w) (List.concat X_imputed) -> v <= w)).
Proof.
  apply (min_rssi_value_with_nan spec_utils half_heard two_rooms _
           [[Some (-40); Some (-60)]; [Some (-80); Some (-45)]]
           [[Some (-95); None]]).
  vm_compute. reflexivity.
Defined.

Section Answers.
Context (U : Utils).

Lemma conditioned_data_early data db tr early :
  conditioned_data U data db = (tr, inr (inl early)) ->
  early = ErrorTuple "Training data is empty. Check the input data." 400
  /\ exists received_data Xy,
       training_data U data db = (tr, inr (received_data, Xy)).
Proof.
  unfold conditioned_data. intros H.
  apply bind_returns in H
    as (tr0 & [received_data [[X0 y0] macs]] & t & Ht & H & ->).
  destruct (_ || _).
  - apply ret_returns in H as [-> H]. inversion H; subst.
    split; [reflexivity|]. rewrite app_nil_r. eauto.
  - apply bind_returns in H as (t1 & [X1 X2] & t2 & _ & H & _).
    apply ret_returns in H as [_ H]. discriminate.
Qed.

Lemma predict_room_answer data db tr resp :
  predict_room U data db = (tr, inr resp) ->
  conditioned_data U data db = (tr, inr (inl resp))
  \/ exists room_name distance optional_value,
       resp = Prediction room_name distance optional_value.
Proof.
  unfold predict_room, classified. intros H.
  apply bind_returns in H as (t & r & t' & Hk & H & ->).
  apply bind_returns in Hk as (tr0 & c & t1 & Hc & Hk & ->).
  destruct c as [early|[[X X_new] y]].
  - apply ret_returns in Hk as [-> <-]. apply ret_returns in H as [-> <-].
    left. now rewrite !app_nil_r.
  - destruct (size X_new =? 0)%nat; [discriminate|].
    apply bind_returns in Hk as (tr1 & k & t2 & _ & Hk & ->).
    apply ret_returns in Hk as [-> <-].
    destruct k as [[[p d]|] ov]; [|discriminate].
    apply ret_returns in H as [_ <-]. right. eauto.
Qed.
End Answers.

(** X19.  What the handler returns, and after which calls.  It returns
    either the pair "Training data is empty" with 400, after the
    aggregation, the enabled filters and [prepare_data]; or a prediction,
    after these calls followed by the imputation, the query vector, the
    threshold, the scaling and one classifier, which is the one that the
    algorithm name selects. *)
Theorem predict_room_answers (U : Utils) (data : PredictData.t) (db : Db)
    (tr : list call) (resp : response) :
  predict_room U data db = (tr, inr resp) ->
  (resp = ErrorTuple "Training data is empty. Check the input data." 400
   /\ tr = [Call_process_received_data; Call_process_fingerprint_data]
           ++ enabled_filters data ++ [Call_prepare_data])
  \/ (exists room_name distance optional_value m c,
        resp = Prediction room_name distance optional_value
        /\ classifier_call (PredictData.algorithm data) c
        /\ tr = [Call_process_received_data; Call_process_fingerprint_data]
                ++ enabled_filters data
                ++ [Call_prepare_data; Call_handle_missing_values;
                    Call_prepare_received_data;
                    Call_handle_router_rssi_threshold;
                    Call_value_scaling m; c]).
Proof.
  intros H. destruct (predict_room_answer U data db tr resp H)
    as [Hc|(name & d & ov & ->)].
  - left. apply conditioned_data_early in Hc as (-> & rec & Xy & Ht).
    split; [reflexivity|].
    now apply training_data_returns in Ht as (_ & _ & _ & _ & _ & _ & _ & _ & ->).
  - right. apply predict_room_returns in H
      as (tr0 & tr1 & X & X_new & y & p & Hc & Hk & _ & ->).
    apply conditioned_data_returns in Hc
      as (t0 & t1 & rec & X0 & macs & Ht & _ & Hcond & ->).
    apply training_data_returns in Ht as (_ & _ & _ & _ & _ & _ & _ & _ & ->).
    apply condition_returns in Hcond
      as (Xi & Xq & a & b & Xt & Xqt & _ & _ & _ & _ & _ & _ & ->).
    apply classify_returns in Hk as (alg & Halg & Hcases).
    assert (Hcall : exists c, classifier_call (PredictData.algorithm data) c
                              /\ tr1 = [c]).
    { unfold classifier_call. rewrite Halg.
      destruct Hcases as [(metric & [[-> ->]|[-> ->]] & _ & _ & ->)
                         |[(-> & _ & _ & ->)
                          |(kernel & [[-> ->]|[-> ->]] & _ & ->)]];
        eexists; split; try reflexivity; tauto. }
    destruct Hcall as (c & Hcc & ->).
    exists name, d, ov, (py_min a b), c. split; [reflexivity|].
    split; [exact Hcc|]. now rewrite <- !app_assoc.
Qed.

Lemma predict_room_answers_witness :
  (Prediction "101" (PrimFloat.sqrt (SpecUtils.float_of_Z 8)) (PyInt (-1))
   = ErrorTuple "Training data is empty. Check the input data." 400
   /\ [Call_process_received_data; Call_process_fingerprint_data;
       Call_prepare_data; Call_handle_missing_values;
       Call_prepare_received_data; Call_handle_router_rssi_threshold;
       Call_value_scaling (Some (-80)); Call_knn "euclidean"]
      = [Call_process_received_data; Call_process_fingerprint_data]
        ++ enabled_filters scenario_A ++ [Call_prepare_data])
  \/ (exists room_name distance optional_value m c,
        Prediction "101" (PrimFloat.sqrt (SpecUtils.float_of_Z 8)) (PyInt (-1))
        = Prediction room_name distance optional_value
        /\ classifier_call (PredictData.algorithm scenario_A) c
        /\ [Call_process_received_data; Call_process_fingerprint_data;
            Call_prepare_data; Call_handle_missing_values;
            Call_prepare_received_data; Call_handle_router_rssi_threshold;
            Call_value_scaling (Some (-80)); Call_knn "euclidean"]
           = [Call_process_received_data; Call_process_fingerprint_data]
             ++ enabled_filters scenario_A
             ++ [Call_prepare_data; Call_handle_missing_values;
                 Call_prepare_received_data;
                 Call_handle_router_rssi_threshold;
                 Call_value_scaling m; c]).
Proof.
  apply (predict_room_answers spec_utils scenario_A two_rooms).
  vm_compute. reflexivity.
Defined.

Lemma rows_of_measurement_same (db db' : Db) (m : Measurement.t)
      (links : list MeasurementRouter.t) :
  routers db = routers db' ->
  rows_of_measurement db m links = rows_of_measurement db' m links.
Proof.
  intros Hr. induction links as [|l links IH]; [reflexivity|].
  simpl. unfold query_router_by_id. now rewrite Hr, IH.
Qed.

Lemma collect_result_same (db db' : Db) (ign : option (list Z))
      (ms : list Measurement.t) :
  same_samples db db' ->
  collect_result db ign ms = collect_result db' ign ms.
Proof.
  intros (_ & Hr & Hl). induction ms as [|m ms IH]; [reflexivity|].
  simpl. unfold query_measurement_routers.
  now rewrite Hl, (rows_of_measurement_same db db' _ _ Hr), IH.
Qed.

Lemma classified_early (U : Utils) data db tr early :
  classified U data db = (tr, inr (inl early)) ->
  early = ErrorTuple "Training data is empty. Check the input data." 400.
Proof.
  unfold classified. intros H.
  apply bind_returns in H as (tr0 & c & t1 & Hc & H & ->).
  destruct c as [e0|[[X X_new] y]].
  - apply ret_returns in H as [_ H]. inversion H; subst.
    now apply conditioned_data_early in Hc.
  - destruct (size X_new =? 0)%nat; [discriminate|].
    apply bind_returns in H as (t2 & k & t3 & _ & H & _).
    apply ret_returns in H as [_ H]. discriminate.
Qed.

(** X20.  The rooms table is read by the lookup of line 214 only: on two
    states of the tables with the same measurements, routers and link rows,
    the handler makes the same calls and reaches the end of line 212 with
    the same result, so that it raises the same exception, returns the same
    empty-training answer, or returns predictions of the same room
    identifier that differ at most in the room name. *)
Theorem predict_room_rooms_only_name (U : Utils) (data : PredictData.t)
    (db db' : Db) :
  same_samples db db' ->
  classified U data db = classified U data db'
  /\ trace (predict_room U data db) = trace (predict_room U data db')
  /\ (forall e, outcome (predict_room U data db) = inl e ->
                outcome (predict_room U data db') = inl e)
  /\ (forall error status,
        outcome (predict_room U data db) = inr (ErrorTuple error status) ->
        outcome (predict_room U data db') = inr (ErrorTuple error status))
  /\ (forall room_name distance optional_value,
        outcome (predict_room U data db)
        = inr (Prediction room_name distance optional_value) ->
        exists predicted_room,
          room_name = handle_get_room_name_by_id predicted_room db
          /\ outcome (predict_room U data db')
             = inr (Prediction
                      (handle_get_room_name_by_id predicted_room db')
                      distance optional_value)).
Proof.
  intros Hs.
  assert (Hk : classified U data db = classified U data db').
  { unfold classified, conditioned_data, training_data.
    rewrite (collect_result_same db db' _ _ Hs).
    destruct Hs as (Hm & _). now rewrite Hm. }
  split; [exact Hk|]. unfold predict_room. rewrite <- Hk.
  destruct (classified U data db) as [t [e|[early|[[[p d]|] ov]]]] eqn:Hc;
    cbn.
  - repeat split; try discriminate; auto.
  - apply classified_early in Hc. subst early.
    repeat split; try discriminate; auto.
  - repeat split; try discriminate; auto.
    intros name d' ov' H. inversion H; subst. now exists p.
  - repeat split; try discriminate; auto.
Qed.

Lemma two_rooms_same_samples : same_samples two_rooms rooms_deleted.
Proof. repeat split. Qed.

Lemma predict_room_rooms_only_name_witness :
  classified spec_utils scenario_A two_rooms
  = classified spec_utils scenario_A rooms_deleted
  /\ trace (predict_room spec_utils scenario_A two_rooms)
     = trace (predict_room spec_utils scenario_A rooms_deleted)
  /\ (forall e, outcome (predict_room spec_utils scenario_A two_rooms) = inl e ->
                outcome (predict_room spec_utils scenario_A rooms_deleted)
                = inl e)
  /\ (forall error status,
        outcome (predict_room spec_utils scenario_A two_rooms)
        = inr (ErrorTuple error status) ->
        outcome (predict_room spec_utils scenario_A rooms_deleted)
        = inr (ErrorTuple error status))
  /\ (forall room_name distance optional_value,
        outcome (predict_room spec_utils scenario_A two_rooms)
        = inr (Prediction room_name distance optional_value) ->
        exists predicted_room,
          room_name = handle_get_room_name_by_id predicted_room two_rooms
          /\ outcome (predict_room spec_utils scenario_A rooms_deleted)
             = inr (Prediction
                      (handle_get_room_name_by_id predicted_room rooms_deleted)
                      distance optional_value)).
Proof.
  apply (predict_room_rooms_only_name spec_utils scenario_A
           two_rooms rooms_deleted).
  repeat split.
Defined.

Lemma two_rooms_routers_resolve : routers_resolve two_rooms.
Proof.
  intros link Hl. simpl in Hl.
  destruct Hl as [<-|[<-|[<-|[<-|[]]]]]; eexists; reflexivity.
Qed.

Lemma collect_result_kept_samples_witness :
  exists blocks,
    collect_result two_rooms (PredictData.ignore_measurements without_second)
                   (measurements two_rooms) = inr (List.concat blocks)
    /\ Forall2 (rows_of_sample two_rooms)
               (filter (kept (PredictData.ignore_measurements without_second))
                       (measurements two_rooms))
               blocks.
Proof.
  apply (collect_result_kept_samples two_rooms
           (PredictData.ignore_measurements without_second)).
  exact two_rooms_routers_resolve.
Defined.

Lemma predict_room_dangling_router_witness :
  predict_room spec_utils scenario_A dangling_link
  = ([Call_process_received_data],
     inl (AttributeError "'NoneType' object has no attribute 'bssid'")).
Proof.
  apply (predict_room_dangling_router spec_utils scenario_A dangling_link
           live_scan (Measurement.mk 2 2000 "dev" 2)
           (MeasurementRouter.mk 2 9 (Some (-70)))).
  - discriminate.
  - reflexivity.
  - simpl. auto.
  - reflexivity.
  - simpl. auto 10.
  - reflexivity.
  - reflexivity.
Defined.

(** ** Properties of [get_all_measurements] *)














Lemma router_entries_raises (db : Db) (links : list MeasurementRouter.t)
      (e : exn) :
  router_entries db links = inl e ->
  e = AttributeError "'NoneType' object has no attribute 'bssid'".
Proof.
  induction links as [|l links IH]; simpl; [discriminate|].
  destruct (query_router_by_id db (MeasurementRouter.router_id l)).
  - destruct (router_entries db links); [|discriminate].
    intros H. inversion H; subst. now apply IH.
  - intros H. now inversion H.
Qed.

Lemma router_entries_dangling (db : Db) (links : list MeasurementRouter.t)
      (link : MeasurementRouter.t) :
  In link links ->
  query_router_by_id db (MeasurementRouter.router_id link) = None ->
  router_entries db links
  = inl (AttributeError "'NoneType' object has no attribute 'bssid'").
Proof.
  induction links as [|l links IH]; intros Hin Hq; [destruct Hin|].
  simpl. destruct Hin as [->|Hin]; [now rewrite Hq|].
  destruct (query_router_by_id db (MeasurementRouter.router_id l));
    [|reflexivity].
  now rewrite (IH Hin Hq).
Qed.

Lemma measurement_entries_dangling (timestamp_of : datetime -> exn + Z)
      (db : Db) (l : list (Measurement.t * string)) (m : Measurement.t)
      (n : string) :
  (forall m0 n0, In (m0, n0) l ->
     exists t, timestamp_of (Measurement.timestamp m0) = inr t) ->
  In (m, n) l ->
  router_entries db
    (query_measurement_routers db (Measurement.measurement_id m))
  = inl (AttributeError "'NoneType' object has no attribute 'bssid'") ->
  measurement_entries timestamp_of db l
  = inl (AttributeError "'NoneType' object has no attribute 'bssid'").
Proof.
  intros Htf Hin Hbad. induction l as [|[m0 n0] l IH]; [destruct Hin|].
  simpl. destruct Hin as [Heq|Hin].
  - inversion Heq; subst. now rewrite Hbad.
  - destruct (router_entries db
                (query_measurement_routers db (Measurement.measurement_id m0)))
      as [e|rd] eqn:Hr.
    + apply router_entries_raises in Hr. now subst.
    + destruct (Htf m0 n0 (or_introl eq_refl)) as [t ->].
      rewrite IH; auto. intros m1 n1 H1. apply (Htf m1 n1). now right.
Qed.

(** X23.  One link row whose router is not stored makes the whole listing
    fail: when a measurement with a stored room has such a link row, and the
    server can convert the stored times, [get_all_measurements] ends with
    the [AttributeError] of line 243 and lists nothing. *)
Theorem get_all_measurements_dangling_router
    (timestamp_of : datetime -> exn + Z) (db : Db) (m : Measurement.t)
    (link : MeasurementRouter.t) :
  (forall m0, In m0 (measurements db) ->
     exists t, timestamp_of (Measurement.timestamp m0) = inr t) ->
  In m (measurements db) ->
  has_room db m = true ->
  In link (measurement_router db) ->
  MeasurementRouter.measurement_id link = Measurement.measurement_id m ->
  query_router_by_id db (MeasurementRouter.router_id link) = None ->
  get_all_measurements timestamp_of db
  = inl (AttributeError "'NoneType' object has no attribute 'bssid'").
Proof.
  intros Htf Hm Hroom Hl Hid Hq.
  unfold has_room in Hroom. apply existsb_exists in Hroom as (room & Hrin & Hrid).
  unfold get_all_measurements.
  apply (measurement_entries_dangling _ _ _ m (Room.room_name room)).
  - intros m0 n0 Hin. unfold joined_measurements in Hin.
    apply in_flat_map in Hin as (m1 & Hm1 & Hin).
    apply in_map_iff in Hin as (r & Hr & _). inversion Hr; subst. now apply Htf.
  - unfold joined_measurements. apply in_flat_map. exists m. split; [exact Hm|].
    apply in_map_iff. exists room. split; [reflexivity|].
    apply filter_In. auto.
  - apply (router_entries_dangling _ _ link); [|exact Hq].
    unfold query_measurement_routers. apply filter_In.
    split; [exact Hl|now apply Z.eqb_eq].
Qed.

Lemma get_all_measurements_dangling_router_witness :
  get_all_measurements utc_server dangling_link
  = inl (AttributeError "'NoneType' object has no attribute 'bssid'").
Proof.
  apply (get_all_measurements_dangling_router utc_server dangling_link
           (Measurement.mk 2 2000 "dev" 2)
           (MeasurementRouter.mk 2 9 (Some (-70)))).
  - intros m0 _. eexists. reflexivity.
  - simpl. auto.
  - reflexivity.
  - simpl. auto 10.
  - reflexivity.
  - reflexivity.
Defined.
